(** * SpongeWorld plugin for calour: a shallow embedding of
      [spongeworld_calour.py] and the properties of its annotation summary.

    Modelling conventions.
    - Python [str] is [string]; [upper]/[lower] act on the ASCII letters
      (sequences are DNA strings, tier names are ASCII words).
    - Python [int] is [Z].
    - A finite Python [float] is a [float]: the sign bit and the exact
      rational magnitude of an IEEE 754 binary64 number.  The operations
      round as the language does: [truediv] gives the double nearest to the
      quotient of two ints (ties to even) and raises [OverflowError] beyond
      the range of a double, [one_minus] rounds the difference, and [fmt_f]
      prints the exact value of the double.  Not-a-number is [None] in
      [option float].
    - [scipy.stats.binom.cdf] is not part of the repository: the code is
      modelled over an arbitrary function [cdf] in its place, which may
      return a float, not-a-number, or raise.  What the library documents
      about it, the binomial distribution function, is [binom_cdf].
    - A raised exception is the [Raise] branch of [py]; statements are
      sequenced with the bind of that monad, in source order.
    - A dict parsed from JSON is an association list in insertion order; the
      payload has the types of the data model (ints, dicts), and its
      ['total_observed'] may be missing or null.
    - The network is a function from requests to responses, and every
      request that is sent is recorded in the [net] state. *)

From Stdlib Require Import ZArith QArith Qabs List String Ascii Bool Lia Lqa.
From Stdlib Require Import Sorting.Sorted Sorting.Permutation.
From Stdlib Require Import DecimalString.
From Stdlib Require Import Setoid Morphisms.
Import ListNotations.

Open Scope string_scope.
Open Scope Z_scope.

(** ** Python exceptions and the exception monad *)

Inductive exn : Type :=
| KeyError (key : string)
| ZeroDivisionError
| ValueError (msg : string)
| OverflowError
| ConnectionError
| JSONDecodeError.

Inductive py (A : Type) : Type :=
| Return (a : A)
| Raise (e : exn).
Arguments Return {A} a.
Arguments Raise {A} e.

Definition bind {A B : Type} (m : py A) (k : A -> py B) : py B :=
  match m with
  | Return a => k a
  | Raise e => Raise e
  end.

Declare Scope py_scope.
Delimit Scope py_scope with py.
Notation "x <- m ;; k" := (bind m (fun x => k))
  (at level 61, m at next level, right associativity) : py_scope.
Open Scope py_scope.

(** ** Strings *)

Definition is_lower_letter (c : ascii) : bool :=
  ((97 <=? nat_of_ascii c) && (nat_of_ascii c <=? 122))%nat.

Definition is_upper_letter (c : ascii) : bool :=
  ((65 <=? nat_of_ascii c) && (nat_of_ascii c <=? 90))%nat.

Definition ascii_upper (c : ascii) : ascii :=
  if is_lower_letter c then ascii_of_nat (nat_of_ascii c - 32) else c.

Definition ascii_lower (c : ascii) : ascii :=
  if is_upper_letter c then ascii_of_nat (nat_of_ascii c + 32) else c.

Fixpoint map_chars (f : ascii -> ascii) (s : string) : string :=
  match s with
  | EmptyString => EmptyString
  | String c s' => String (f c) (map_chars f s')
  end.

(** [str.upper()] and [str.lower()] *)
Definition upper : string -> string := map_chars ascii_upper.
Definition lower : string -> string := map_chars ascii_lower.

(** ['%d' % z] *)
Definition fmt_d (z : Z) : string := NilZero.string_of_int (Z.to_int z).

(** ** Dicts as association lists *)

Definition dict (V : Type) : Type := list (string * V).

Fixpoint dict_get {V : Type} (k : string) (d : dict V) : option V :=
  match d with
  | [] => None
  | (k', v) :: d' => if String.eqb k k' then Some v else dict_get k d'
  end.

(** [d[k]]: a missing key raises [KeyError] *)
Definition subscript {V : Type} (d : dict V) (k : string) : py V :=
  match dict_get k d with
  | Some v => Return v
  | None => Raise (KeyError k)
  end.

(** [d.keys()] and [d.items()], in insertion order *)
Definition keys {V : Type} (d : dict V) : list string := map fst d.
Definition items {V : Type} (d : dict V) : list (string * V) := d.

(** [k in d] *)
Definition contains {V : Type} (k : string) (d : dict V) : bool :=
  match dict_get k d with
  | Some _ => true
  | None => false
  end.

(** ** Configuration: [_get_db_address] and [__init__] *)

Definition environ : Type := dict string.

Definition _get_db_address (os_environ : environ) : py string :=
  if contains "SPONGEWORLD_SERVER_TYPE" os_environ then
    v <- subscript os_environ "SPONGEWORLD_SERVER_TYPE" ;;
    let servertype := lower v in
    if String.eqb servertype "local" then
      Return "http://127.0.0.1:5000"
    else if String.eqb servertype "main" then
      Return "http://amnonim.webfactional.com/spongeworld/"
    else if String.eqb servertype "develop" then
      Return "http://amnonim.webfactional.com/spongeworld_develop"
    else
      Raise (ValueError
               ("unknown server type " ++ servertype
                ++ " in SPONGEWORLD_SERVER_TYPE"))
  else
    Return "http://amnonim.webfactional.com/spongeworld".

(** The instance attributes set by [__init__]. *)
Record SpongeWorld : Type := {
  database_name : string;
  methods : list string;
  dburl : string;
  username : option string;
  password : option string;
  web_interface : string
}.

(** [calour.util.get_config_value(key, section=...)] reads the calour
    configuration file; the file's contents are the [config] argument, and a
    missing entry gives [None]. *)
Definition config : Type := string -> string -> option string.

Definition get_config_value (cfg : config) (key section : string)
  : option string := cfg section key.

(** [SpongeWorld.__init__] *)
Definition init (os_environ : environ) (cfg : config) : py SpongeWorld :=
  url <- _get_db_address os_environ ;;
  let user := get_config_value cfg "username" "dbBact" in
  let pass := get_config_value cfg "password" "dbBact" in
  Return {| database_name := "SpongeWorld";
            methods := ["get"];
            dburl := url;
            username := user;
            password := pass;
            web_interface := url |}.

(** ** Floats *)

(** A finite Python [float], an IEEE 754 binary64 number: its sign bit and
    its magnitude, an exact rational.  Not-a-number is [None] in
    [option float]; the code produces no infinity. *)
Record float : Type := Float {
  negative : bool;
  magnitude : Q
}.

(** The number a float stands for. *)
Definition fval (x : float) : Q :=
  if negative x then (- magnitude x)%Q else magnitude x.

(** [x <= y] on two floats *)
Definition fle (x y : float) : bool := Qle_bool (fval x) (fval y).

(** The integer nearest to [a / d], ties to the even one ([0 <= a],
    [0 < d]). *)
Definition round_half_even (a d : Z) : Z :=
  let quo := a / d in
  let rem := a mod d in
  if 2 * rem <? d then quo
  else if d <? 2 * rem then quo + 1
  else if Z.even quo then quo else quo + 1.

(** [n / d < 2 ^ l], for any sign of [l] *)
Definition below_pow2 (n d l : Z) : bool :=
  if 0 <=? l then n <? d * 2 ^ l else n * 2 ^ (- l) <? d.

(** The exponent of the last mantissa bit of the double nearest to [n / d]
    ([0 < n], [0 < d]): the leading bit of the quotient less 52, and -1074
    in the subnormal range. *)
Definition ulp_exponent (n d : Z) : Z :=
  let l := Z.log2 n - Z.log2 d in
  let lead := if below_pow2 n d l then l - 1 else l in
  Z.max (lead - 52) (-1074).

(** The double nearest to [n / d] ([0 < n], [0 < d]), ties to the even
    mantissa, as a fraction in lowest terms; [None] when it would be
    [2 ^ 1024] or more. *)
Definition round_magnitude (n d : Z) : option Q :=
  let e := ulp_exponent n d in
  if 0 <=? e then
    let m := round_half_even n (d * 2 ^ e) in
    if 2 ^ 1024 <=? m * 2 ^ e then None else Some (inject_Z (m * 2 ^ e))
  else
    let m := round_half_even (n * 2 ^ (- e)) d in
    Some (Qred (m # Z.to_pos (2 ^ (- e)))).

(** [a / b] on two ints: the double nearest to the quotient;
    [ZeroDivisionError] when [b] is 0, [OverflowError] when the quotient is
    too large for a float.  The sign bit is set when the signs of [a] and
    [b] differ, also for a zero result. *)
Definition truediv (a b : Z) : py float :=
  if b =? 0 then Raise ZeroDivisionError
  else
    let neg := xorb (a <? 0) (b <? 0) in
    if a =? 0 then Return (Float neg 0)
    else
      match round_magnitude (Z.abs a) (Z.abs b) with
      | Some m => Return (Float neg m)
      | None => Raise OverflowError
      end.

(** The double nearest to a rational; an exact zero is [+0.0]. *)
Definition round_float (q : Q) : option float :=
  if Qnum q =? 0 then Some (Float false 0)
  else
    match round_magnitude (Z.abs (Qnum q)) (Zpos (Qden q)) with
    | Some m => Some (Float (Qnum q <? 0) m)
    | None => None
    end.

(** [1 - x] on a float.  For a double [x] the difference is below
    [2 ^ 1024 - 2 ^ 970] in magnitude, so its rounding is finite; the other
    branch is there for magnitudes that are no doubles. *)
Definition one_minus (x : float) : float :=
  match round_float (1 - fval x) with
  | Some y => y
  | None => Float (negb (negative x)) (magnitude x)
  end.

Fixpoint zeros (n : nat) : string :=
  match n with
  | O => EmptyString
  | S n' => String "0" (zeros n')
  end.

Definition zero_pad (width : nat) (s : string) : string :=
  zeros (width - String.length s) ++ s.

(** ['%f' % x]: the sign, then the exact magnitude rounded to six digits
    after the point, ties to even. *)
Definition fmt_f (x : float) : string :=
  let r := round_half_even (Z.abs (Qnum (magnitude x)) * 1000000)
                           (Zpos (Qden (magnitude x))) in
  (if negative x then "-" else "")
  ++ fmt_d (r / 1000000) ++ "." ++ zero_pad 6 (fmt_d (r mod 1000000)).

(** The float [0.1], the default threshold. *)
Definition default_pval : float :=
  Float false (3602879701896397 # 36028797018963968).

(** ** The response payload *)

(** A distribution dict: [{'total_samples': int, 'observed_samples': int}]. *)
Record Distribution : Type := {
  observed_samples : Z;
  total_samples : Z
}.

(** The [sequence/info] payload.  ['total_observed'] may be missing from the
    dict ([None]), hold JSON null ([Some None]) or hold an int. *)
Record SequenceAnnotationInfo : Type := {
  total_observed : option (option Z);
  info_total_samples : Z;
  info : dict (dict Distribution)
}.

(** [info['total_observed']] *)
Definition get_total_observed (i : SequenceAnnotationInfo) : py (option Z) :=
  match total_observed i with
  | Some v => Return v
  | None => Raise (KeyError "total_observed")
  end.

(** ** [sorted] *)

Section Sorted.
Context {A : Type}.
(** [before x y]: [x] is placed in front of an element [y] that followed it
    in the input.  A stable sort keeps [x] first on equal keys. *)
Variable before : A -> A -> bool.

Fixpoint insert (x : A) (l : list A) : list A :=
  match l with
  | [] => [x]
  | y :: l' => if before x y then x :: l else y :: insert x l'
  end.

Definition stable_sort (l : list A) : list A := fold_right insert [] l.
End Sorted.


(** One element of [keep]: [[cdesc, cfrac, cpval]]. *)
Definition entry : Type := (string * float * float)%type.
Definition e_desc (e : entry) : string := fst (fst e).
Definition e_frac (e : entry) : Q := fval (snd (fst e)).
Definition e_pval (e : entry) : Q := fval (snd e).

(** [sorted(keep, key=operator.itemgetter(2), reverse=False)] *)
Definition sorted_by_pval : list entry -> list entry :=
  stable_sort (fun x y => Qle_bool (e_pval x) (e_pval y)).

(** [sorted(keep, key=operator.itemgetter(1), reverse=True)] *)
Definition sorted_by_frac_rev : list entry -> list entry :=
  stable_sort (fun x y => Qle_bool (e_frac y) (e_frac x)).

(** ** [get_annotation_string] *)

(** The type of [scipy.stats.binom.cdf(k, n, p)] on two ints and a float:
    it returns a float or not-a-number ([None]), or raises.  The function
    belongs to the library, so the code below takes it as the argument
    [cdf]. *)
Definition binom_cdf_fn : Type := Z -> Z -> float -> py (option float).

(** ['%s:%s (%d/%d)' % (cfield, cval, observed_val_samples, total_val_samples)] *)
Definition fmt_desc (cfield cval : string) (o t : Z) : string :=
  cfield ++ ":" ++ cval ++ " (" ++ fmt_d o ++ "/" ++ fmt_d t ++ ")".

(** ['Found in %f samples (%d / %d)' % (total_observed / total_samples,
     total_observed, total_samples)] *)
Definition fmt_header (rate : float) (tobs tsamp : Z) : string :=
  "Found in " ++ fmt_f rate ++ " samples (" ++ fmt_d tobs ++ " / "
  ++ fmt_d tsamp ++ ")".

(** The body of the inner loop; [nan <= pval] is false. *)
Definition inner_body (cdf : binom_cdf_fn) (null_pv pval : float)
    (cfield : string) (keep : list entry) (item : string * Distribution)
  : py (list entry) :=
  let '(cval, cdist) := item in
  let observed_val_samples := observed_samples cdist in
  let total_val_samples := total_samples cdist in
  cfrac <- truediv observed_val_samples total_val_samples ;;
  cpval <- cdf (total_val_samples - observed_val_samples) total_val_samples
               null_pv ;;
  match cpval with
  | Some p =>
      if fle p pval then
        let cdesc := fmt_desc cfield cval observed_val_samples
                              total_val_samples in
        Return (keep ++ [(cdesc, cfrac, p)])%list
      else Return keep
  | None => Return keep
  end.

(** A [for] loop whose body may raise, threading the mutated state. *)
Fixpoint for_each {S X : Type} (body : S -> X -> py S) (xs : list X) (s : S)
  : py S :=
  match xs with
  | [] => Return s
  | x :: xs' => s' <- body s x ;; for_each body xs' s'
  end.

Definition outer_body (cdf : binom_cdf_fn) (null_pv pval : float)
    (fields : dict (dict Distribution)) (keep : list entry) (cfield : string)
  : py (list entry) :=
  values <- subscript fields cfield ;;
  for_each (inner_body cdf null_pv pval cfield) (items values) keep.

Definition get_annotation_string (cdf : binom_cdf_fn)
    (i : SequenceAnnotationInfo) (pval : float) : py (list string) :=
  let keep := [] in
  tobs <- get_total_observed i ;;
  match tobs with
  | Some z =>
      if z =? 0 then Return []
      else
        let tsamp := info_total_samples i in
        rate <- truediv z tsamp ;;
        let null_pv := one_minus rate in
        keep <- for_each (outer_body cdf null_pv pval (info i))
                         (keys (info i)) keep ;;
        let keep := sorted_by_pval keep in
        let keep := sorted_by_frac_rev keep in
        let desc := map e_desc keep in
        rate' <- truediv z tsamp ;;
        Return (fmt_header rate' z tsamp :: desc)
  | None => Return []
  end.

(** ** Transport *)

Record Request : Type := {
  req_method : string;
  req_url : string;
  req_json : dict string
}.

(** What the client reads off a [requests] response; [json] is the outcome
    of [res.json()]. *)
Record Response : Type := {
  status_code : Z;
  reason : string;
  content : string;
  json : py SequenceAnnotationInfo
}.

(** The remote side: a transport failure raises, anything else answers. *)
Definition server : Type := Request -> py Response.

(** Observable effects of the client: the requests sent and the warnings
    handed to the logger, oldest first. *)
Record net : Type := {
  sent : list Request;
  warnings : list string
}.

Definition io (A : Type) : Type := net -> py A * net.

Definition io_ret {A : Type} (a : A) : io A := fun st => (Return a, st).

Definition io_bind {A B : Type} (m : io A) (k : A -> io B) : io B :=
  fun st =>
    match m st with
    | (Return a, st') => k a st'
    | (Raise e, st') => (Raise e, st')
    end.

Definition lift {A : Type} (m : py A) : io A := fun st => (m, st).

Notation "x <~ m ;; k" := (io_bind m (fun x => k))
  (at level 61, m at next level, right associativity) : py_scope.

Definition send (srv : server) (rq : Request) : io Response :=
  fun st => (srv rq, {| sent := (sent st ++ [rq])%list;
                        warnings := warnings st |}).

Definition logger_warn (msg : string) : io unit :=
  fun st => (Return tt, {| sent := sent st;
                           warnings := (warnings st ++ [msg])%list |}).

Definition rest_error (res : Response) (api : string) : string :=
  "REST error " ++ reason res ++ " enountered when accessing SpongeWorld "
  ++ api ++ ": " ++ content res.

Definition _get (self : SpongeWorld) (srv : server) (api : string)
    (rdata : dict string) : io Response :=
  res <~ send srv {| req_method := "GET";
                     req_url := dburl self ++ "/" ++ api;
                     req_json := rdata |} ;;
  if negb (status_code res =? 200) then
    _ <~ logger_warn (rest_error res api) ;;
    io_ret res
  else io_ret res.

Definition _post (self : SpongeWorld) (srv : server) (api : string)
    (rdata : dict string) : io Response :=
  res <~ send srv {| req_method := "POST";
                     req_url := dburl self ++ "/" ++ api;
                     req_json := rdata |} ;;
  if negb (status_code res =? 200) then
    _ <~ logger_warn (rest_error res api) ;;
    io_ret res
  else io_ret res.

(** ** [get_seq_annotations] and [get_seq_annotation_strings] *)

Definition get_seq_annotations (cdf : binom_cdf_fn) (self : SpongeWorld)
    (srv : server) (sequence : string) : io (list string) :=
  let sequence := upper sequence in
  let rdata := [("sequence", sequence)] in
  res <~ _get self srv "sequence/info" rdata ;;
  if negb (status_code res =? 200) then io_ret []
  else
    info <~ lift (json res) ;;
    desc <~ lift (get_annotation_string cdf info default_pval) ;;
    io_ret desc.

Definition get_seq_annotation_strings (cdf : binom_cdf_fn)
    (self : SpongeWorld) (srv : server) (sequence : string)
  : io (list (dict string * string)) :=
  let shortdesc := [] in
  annotations <~ get_seq_annotations cdf self srv sequence ;;
  io_ret
    (fold_left
       (fun shortdesc cann =>
          (shortdesc
           ++ [([("annotationtype", "other"); ("sequence", sequence)], cann)])
          %list)
       annotations shortdesc).

(** ** [show_annotation_info] *)

(** One call of [webbrowser.open(address, new=new)]. *)
Record BrowserCall : Type := {
  address : string;
  new : Z
}.

(** [show_annotation_info]: the address is formatted first, so a missing
    ['sequence'] key raises before the browser is asked for anything.  The
    calls made to the browser are threaded as state, oldest first. *)
Definition show_annotation_info (self : SpongeWorld)
    (annotation : dict string) (opened : list BrowserCall)
  : py unit * list BrowserCall :=
  let new := 2 in
  match subscript annotation "sequence" with
  | Return sequence =>
      let address :=
        web_interface self ++ "/search_results?sequence=" ++ sequence in
      (Return tt, (opened ++ [{| address := address; new := new |}])%list)
  | Raise e => (Raise e, opened)
  end.

(** ** The binomial distribution function

    What the library documents about [scipy.stats.binom.cdf], over exact
    rationals. *)

Fixpoint qpow (x : Q) (n : nat) : Q :=
  match n with
  | O => 1%Q
  | S n' => (x * qpow x n')%Q
  end.

(** The binomial coefficient, by Pascal's rule. *)
Fixpoint choose (n k : nat) : nat :=
  match k with
  | O => 1%nat
  | S k' =>
      match n with
      | O => 0%nat
      | S n' => (choose n' k' + choose n' k)%nat
      end
  end.

(** Probability mass of the binomial distribution. *)
Definition binom_pmf (n : nat) (p : Q) (i : nat) : Q :=
  (inject_Z (Z.of_nat (choose n i)) * qpow p i * qpow (1 - p) (n - i))%Q.

(** [f 0 + f 1 + ... + f k] *)
Fixpoint sum_upto (f : nat -> Q) (k : nat) : Q :=
  match k with
  | O => f O
  | S k' => (sum_upto f k' + f k)%Q
  end.

(** [scipy.stats.binom.cdf(k, n, p)] for ints [k], [n]: not-a-number
    ([None]) unless [0 <= n] and [0 <= p <= 1]; 0 below the support, 1 from
    [n] on, and the sum of the probability masses up to [k] in between. *)
Definition binom_cdf (k n : Z) (p : Q) : option Q :=
  if (0 <=? n) && Qle_bool 0 p && Qle_bool p 1 then
    if k <? 0 then Some 0%Q
    else if n <=? k then Some 1%Q
    else Some (sum_upto (binom_pmf (Z.to_nat n) p) (Z.to_nat k))
  else None.

(** The p-value of one distribution by that function. *)
Definition p_value (null_pv : Q) (cdist : Distribution) : option Q :=
  binom_cdf (total_samples cdist - observed_samples cdist)
            (total_samples cdist) null_pv.

(** The probability of at most [k] successes in [n] independent trials that
    each succeed with probability [p], by conditioning on one trial: it
    succeeds with probability [p], leaving at most [k - 1] successes for the
    other trials, or fails with probability [1 - p]. *)
Fixpoint prob_at_most (p : Q) (n : nat) (k : Z) : Q :=
  match n with
  | O => if k <? 0 then 0%Q else 1%Q
  | S n' => (p * prob_at_most p n' (k - 1)
             + (1 - p) * prob_at_most p n' k)%Q
  end.

(** A float in [0, 1] nearest to a rational. *)
Definition unit_float (q : Q) : float :=
  match round_float q with
  | Some x =>
      if Qle_bool (fval x) 0 then Float false 0
      else if Qle_bool 1 (fval x) then Float false 1
      else x
  | None => Float false 1
  end.

(** A function of the type of [scipy.stats.binom.cdf] that never raises:
    the distribution function above at the float's value, rounded to the
    nearest float.  The examples run the code with it. *)
Definition cdf_reference : binom_cdf_fn :=
  fun k n p =>
    Return match binom_cdf k n (fval p) with
           | Some q => Some (unit_float q)
           | None => None
           end.

(** ** The summary, in the words of the specification *)

(** A (field, value, distribution) triple. *)
Abbreviation triple := (string * string * Distribution)%type.

(** Step 3 for one triple: the observed rate is
    [observed_samples / total_samples]; the p-value is the distribution
    function of Binomial([n = total_samples], [null_rate]) at
    [total_samples - observed_samples]; a descriptor is kept when the
    p-value is at most [pval]. *)
Definition spec_descriptor (cdf : binom_cdf_fn) (null_rate pval : float)
    (t : triple) : py (list entry) :=
  let '(field, value, distribution) := t in
  observed_rate <- truediv (observed_samples distribution)
                           (total_samples distribution) ;;
  p <- cdf (total_samples distribution - observed_samples distribution)
           (total_samples distribution) null_rate ;;
  Return match p with
         | Some p =>
             if fle p pval then
               [(fmt_desc field value (observed_samples distribution)
                          (total_samples distribution),
                 observed_rate, p)]
             else []
         | None => []
         end.

(** Step 3 for every triple, in order. *)
Fixpoint spec_kept (cdf : binom_cdf_fn) (null_rate pval : float)
    (ts : list triple) : py (list entry) :=
  match ts with
  | [] => Return []
  | t :: ts' =>
      d <- spec_descriptor cdf null_rate pval t ;;
      rest <- spec_kept cdf null_rate pval ts' ;;
      Return (d ++ rest)%list
  end.

(** Steps 2 to 6: [null_rate = 1 - total_observed / total_samples] with a
    division that does not truncate, the kept descriptors sorted by p-value
    and then by rate, the header in front, the texts only. *)
Definition spec_summary (cdf : binom_cdf_fn) (tobs tsamp : Z)
    (ts : list triple) (pval : float) : py (list string) :=
  rate <- truediv tobs tsamp ;;
  let null_rate := one_minus rate in
  kept <- spec_kept cdf null_rate pval ts ;;
  Return (fmt_header rate tobs tsamp
          :: map e_desc (sorted_by_frac_rev (sorted_by_pval kept))).

(** ** Definitions used to state the properties *)

(** The (field, value, distribution) triples of one field, and of the fields
    named by [ks], in iteration order. *)
Definition field_triples (cfield : string) (values : dict Distribution)
  : list triple :=
  map (fun item => (cfield, fst item, snd item)) values.

Definition triples_on (d : dict (dict Distribution)) (ks : list string)
  : list triple :=
  flat_map (fun cfield => match dict_get cfield d with
                          | Some values => field_triples cfield values
                          | None => []
                          end) ks.

(** The triples the two nested loops visit. *)
Definition triples (d : dict (dict Distribution)) : list triple :=
  triples_on d (keys d).

(** The final order of the summary: larger fraction first, and among equal
    fractions smaller p-value first. *)
Definition frac_then_pval (x y : entry) : Prop :=
  (e_frac y < e_frac x \/ (e_frac x == e_frac y /\ e_pval x <= e_pval y))%Q.

(** The order after the first sort. *)
Definition pval_le (x y : entry) : Prop := (e_pval x <= e_pval y)%Q.

(** The descriptors after the two sorts. *)
Definition ranked (kept : list entry) : list entry :=
  sorted_by_frac_rev (sorted_by_pval kept).

(** Entries whose fraction is [f] and whose p-value is [p]. *)
Definition tied (f p : Q) (e : entry) : bool :=
  Qeq_bool (e_frac e) f && Qeq_bool (e_pval e) p.

(** Every number [cdf] returns lies in [0, 1], as a probability does. *)
Definition cdf_in_unit (cdf : binom_cdf_fn) : Prop :=
  forall k n p x,
    cdf k n p = Return (Some x) -> (0 <= fval x)%Q /\ (fval x <= 1)%Q.

(** The name of the server-tier variable. *)
Definition tier_var : string := "SPONGEWORLD_SERVER_TYPE".

(** The one request [get_seq_annotations] sends for [sequence]. *)
Definition info_request (self : SpongeWorld) (sequence : string) : Request :=
  {| req_method := "GET";
     req_url := dburl self ++ "/" ++ "sequence/info";
     req_json := [("sequence", upper sequence)] |}.

(** The request a transport helper sends. *)
Definition api_request (method : string) (self : SpongeWorld) (api : string)
    (rdata : dict string) : Request :=
  {| req_method := method;
     req_url := dburl self ++ "/" ++ api;
     req_json := rdata |}.

(** Strings of ASCII characters, on which [upper] and [lower] are those of
    Python. *)
Fixpoint is_ascii (s : string) : bool :=
  match s with
  | EmptyString => true
  | String c s' => (nat_of_ascii c <? 128)%nat && is_ascii s'
  end.

(** ** Example data *)

(** A configuration file without credentials. *)
Definition no_config : config := fun _ _ => None.

Definition dist (o t : Z) : Distribution :=
  {| observed_samples := o; total_samples := t |}.

(** The float [1.0]. *)
Definition one_float : float := Float false 1.

(** The sequence is in one sample of two; it is in no skin sample, in all
    four gut samples, in seven of eight human samples and in all five mouse
    samples. *)
Definition ex_info : SequenceAnnotationInfo :=
  {| total_observed := Some (Some 1);
     info_total_samples := 2;
     info := [("site", [("skin", dist 0 3); ("gut", dist 4 4)]);
              ("host", [("human", dist 7 8); ("mouse", dist 5 5)])] |}.

Definition ex_self : SpongeWorld :=
  {| database_name := "SpongeWorld"; methods := ["get"];
     dburl := "http://127.0.0.1:5000"; username := None; password := None;
     web_interface := "http://127.0.0.1:5000" |}.

Definition ex_net : net := {| sent := []; warnings := [] |}.

Definition ex_server_ok : server :=
  fun _ => Return {| status_code := 200; reason := "OK"; content := "";
                     json := Return ex_info |}.

Definition ex_server_missing : server :=
  fun _ => Return {| status_code := 404; reason := "NOT FOUND";
                     content := "no such page"; json := Raise JSONDecodeError |}.

(** A server that cannot be reached. *)
Definition ex_server_down : server := fun _ => Raise ConnectionError.

(** A payload within the data model whose only distribution has no
    samples. *)
Definition ex_info_empty_value : SequenceAnnotationInfo :=
  {| total_observed := Some (Some 10);
     info_total_samples := 100;
     info := [("host", [("human", dist 0 0)])] |}.

(** * Properties *)

(** ** Arithmetic of the binomial distribution *)

Lemma choose_gt (n k : nat) : (n < k)%nat -> choose n k = 0%nat.
Proof.
  revert k; induction n as [|n IH]; intros [|k] H; simpl; try lia.
  rewrite !IH by lia. reflexivity.
Qed.

Lemma sum_upto_ext (f g : nat -> Q) (k : nat) :
  (forall i, f i == g i)%Q -> (sum_upto f k == sum_upto g k)%Q.
Proof.
  intros E. induction k as [|k IH]; simpl.
  - apply E.
  - rewrite IH, (E (S k)). reflexivity.
Qed.

Lemma sum_upto_shift (f : nat -> Q) (k : nat) :
  (sum_upto f (S k) == f O + sum_upto (fun i => f (S i)) k)%Q.
Proof.
  induction k as [|k IH].
  - simpl. reflexivity.
  - change (sum_upto f (S (S k))) with (sum_upto f (S k) + f (S (S k)))%Q.
    rewrite IH. simpl. ring.
Qed.

Lemma sum_upto_linear (a b : Q) (f g : nat -> Q) (k : nat) :
  (sum_upto (fun i => a * f i + b * g i) k
   == a * sum_upto f k + b * sum_upto g k)%Q.
Proof.
  induction k as [|k IH]; simpl.
  - reflexivity.
  - rewrite IH. ring.
Qed.

Lemma inject_nat_add (a b : nat) :
  (inject_Z (Z.of_nat (a + b))
   == inject_Z (Z.of_nat a) + inject_Z (Z.of_nat b))%Q.
Proof. rewrite Nat2Z.inj_add, inject_Z_plus. reflexivity. Qed.

Lemma binom_pmf_zero (n : nat) (p : Q) :
  (binom_pmf (S n) p O == (1 - p) * binom_pmf n p O)%Q.
Proof.
  unfold binom_pmf. rewrite !Nat.sub_0_r.
  replace (choose (S n) O) with 1%nat by (destruct n; reflexivity).
  replace (choose n O) with 1%nat by (destruct n; reflexivity).
  simpl. ring.
Qed.

Lemma binom_pmf_pascal (n : nat) (p : Q) (i : nat) :
  (binom_pmf (S n) p (S i)
   == p * binom_pmf n p i + (1 - p) * binom_pmf n p (S i))%Q.
Proof.
  unfold binom_pmf.
  change (choose (S n) (S i)) with (choose n i + choose n (S i))%nat.
  rewrite inject_nat_add.
  change (S n - S i)%nat with (n - i)%nat.
  destruct (Nat.lt_ge_cases i n) as [Hlt | Hge].
  - replace (n - i)%nat with (S (n - S i)) by lia. simpl. ring.
  - rewrite (choose_gt n (S i)) by lia. simpl. ring.
Qed.

Lemma prob_at_most_neg (p : Q) (n : nat) (k : Z) :
  k < 0 -> (prob_at_most p n k == 0)%Q.
Proof.
  revert k; induction n as [|n IH]; intros k Hk; simpl.
  - destruct (Z.ltb_spec k 0); [reflexivity | lia].
  - rewrite (IH (k - 1)), (IH k) by lia. ring.
Qed.

Lemma prob_at_most_all (p : Q) (n : nat) (k : Z) :
  Z.of_nat n <= k -> (prob_at_most p n k == 1)%Q.
Proof.
  revert k; induction n as [|n IH]; intros k Hk; simpl.
  - destruct (Z.ltb_spec k 0); [lia | reflexivity].
  - rewrite (IH (k - 1)), (IH k) by lia. ring.
Qed.

Lemma sum_pmf_no_trial (p : Q) (k : nat) :
  (sum_upto (binom_pmf O p) k == 1)%Q.
Proof.
  induction k as [|k IH]; simpl.
  - unfold binom_pmf. simpl. ring.
  - rewrite IH. unfold binom_pmf. simpl. ring.
Qed.

(** The closed form agrees with the trial-by-trial definition. *)
Lemma sum_pmf_prob_at_most (p : Q) (n k : nat) :
  (sum_upto (binom_pmf n p) k == prob_at_most p n (Z.of_nat k))%Q.
Proof.
  revert k; induction n as [|n IH]; intros k.
  - rewrite sum_pmf_no_trial. simpl.
    destruct (Z.ltb_spec (Z.of_nat k) 0); [lia | reflexivity].
  - cbn [prob_at_most]. destruct k as [|k].
    + rewrite prob_at_most_neg by lia. rewrite <- (IH O).
      cbn [sum_upto]. rewrite binom_pmf_zero. ring.
    + replace (Z.of_nat (S k) - 1) with (Z.of_nat k) by lia.
      rewrite <- (IH k), <- (IH (S k)).
      rewrite sum_upto_shift.
      rewrite (sum_upto_ext _ _ k (binom_pmf_pascal n p)).
      rewrite sum_upto_linear, binom_pmf_zero.
      rewrite (sum_upto_shift (binom_pmf n p) k). ring.
Qed.

Lemma prob_at_most_mono (p : Q) (n : nat) (k1 k2 : Z) :
  (0 <= p)%Q -> (p <= 1)%Q -> k1 <= k2 ->
  (prob_at_most p n k1 <= prob_at_most p n k2)%Q.
Proof.
  intros H0 H1. revert k1 k2; induction n as [|n IH]; intros k1 k2 Hk.
  - simpl. destruct (Z.ltb_spec k1 0), (Z.ltb_spec k2 0); try lia; lra.
  - cbn [prob_at_most].
    assert (A := IH (k1 - 1) (k2 - 1) ltac:(lia)).
    assert (B := IH k1 k2 Hk).
    apply Qplus_le_compat.
    + rewrite !(Qmult_comm p). apply Qmult_le_compat_r; assumption.
    + rewrite !(Qmult_comm (1 - p)). apply Qmult_le_compat_r; [assumption | lra].
Qed.

(** [binom.cdf] on valid arguments is the probability of at most [k]
    successes. *)
Lemma binom_cdf_prob_at_most (k n : Z) (p : Q) :
  0 <= n -> (0 <= p)%Q -> (p <= 1)%Q ->
  exists q, binom_cdf k n p = Some q
            /\ (q == prob_at_most p (Z.to_nat n) k)%Q.
Proof.
  intros Hn H0 H1. unfold binom_cdf.
  apply Z.leb_le in Hn as Hn'. apply Qle_bool_iff in H0 as H0'.
  apply Qle_bool_iff in H1 as H1'. rewrite Hn', H0', H1'. simpl.
  destruct (Z.ltb_spec k 0) as [Hk | Hk].
  - eexists; split; [reflexivity|]. symmetry. now apply prob_at_most_neg.
  - destruct (Z.leb_spec n k) as [Hnk | Hnk].
    + eexists; split; [reflexivity|]. symmetry. apply prob_at_most_all. lia.
    + eexists; split; [reflexivity|].
      rewrite sum_pmf_prob_at_most. rewrite Z2Nat.id by lia. reflexivity.
Qed.


Lemma prob_at_most_bounds (p : Q) (n : nat) (k : Z) :
  (0 <= p)%Q -> (p <= 1)%Q ->
  (0 <= prob_at_most p n k)%Q /\ (prob_at_most p n k <= 1)%Q.
Proof.
  intros H0 H1. split.
  - rewrite <- (prob_at_most_neg p n (Z.min k (-1))) by lia.
    apply prob_at_most_mono; try assumption. lia.
  - rewrite <- (prob_at_most_all p n (Z.max k (Z.of_nat n))) by lia.
    apply prob_at_most_mono; try assumption. lia.
Qed.

Lemma binom_cdf_nan (k n : Z) (p : Q) :
  binom_cdf k n p = None <-> (n < 0 \/ (p < 0)%Q \/ (1 < p)%Q).
Proof.
  unfold binom_cdf.
  destruct (Z.leb_spec 0 n) as [Hn | Hn]; cbn [andb].
  - destruct (Qle_bool 0 p) eqn:E0; cbn [andb].
    + apply Qle_bool_iff in E0. destruct (Qle_bool p 1) eqn:E1.
      * apply Qle_bool_iff in E1.
        split.
        { destruct (k <? 0); [discriminate|].
          destruct (n <=? k); discriminate. }
        intros [H | [H | H]]; [lia | lra | lra].
      * split; [intros _|reflexivity]. right. right.
        apply Qnot_le_lt. intros H. apply Qle_bool_iff in H. congruence.
    + split; [intros _|reflexivity]. right. left.
      apply Qnot_le_lt. intros H. apply Qle_bool_iff in H. congruence.
  - split; [intros _; now left | reflexivity].
Qed.

Lemma p_value_valid (null_pv : Q) (cdist : Distribution) (cpval : Q) :
  p_value null_pv cdist = Some cpval ->
  0 <= total_samples cdist /\ (0 <= null_pv)%Q /\ (null_pv <= 1)%Q.
Proof.
  intros E.
  assert (Hvalid : ~ (total_samples cdist < 0 \/ (null_pv < 0)%Q
                      \/ (1 < null_pv)%Q)).
  { intros H.
    apply (proj2 (binom_cdf_nan
                    (total_samples cdist - observed_samples cdist) _ _))
      in H.
    unfold p_value in E. rewrite H in E. discriminate. }
  repeat split.
  - lia.
  - apply Qnot_lt_le. intros H. apply Hvalid. right. now left.
  - apply Qnot_lt_le. intros H. apply Hvalid. right. now right.
Qed.

Lemma p_value_bounded (null_pv : Q) (cdist : Distribution) (cpval : Q) :
  p_value null_pv cdist = Some cpval -> (0 <= cpval)%Q /\ (cpval <= 1)%Q.
Proof.
  intros E. destruct (p_value_valid _ _ _ E) as (Hn & H0 & H1).
  destruct (binom_cdf_prob_at_most
              (total_samples cdist - observed_samples cdist)
              (total_samples cdist) null_pv Hn H0 H1) as (q' & E' & Hq).
  unfold p_value in E. rewrite E in E'. injection E' as <-.
  destruct (prob_at_most_bounds null_pv (Z.to_nat (total_samples cdist))
              (total_samples cdist - observed_samples cdist) H0 H1).
  split; rewrite Hq; assumption.
Qed.

(** ** The loop of [get_annotation_string] *)

Lemma fle_iff (x y : float) : fle x y = true <-> (fval x <= fval y)%Q.
Proof. unfold fle. apply Qle_bool_iff. Qed.

Lemma spec_kept_app (cdf : binom_cdf_fn) (null_rate pval : float)
    (a b : list triple) :
  spec_kept cdf null_rate pval (a ++ b)
  = (x <- spec_kept cdf null_rate pval a ;;
     y <- spec_kept cdf null_rate pval b ;;
     Return (x ++ y)%list).
Proof.
  induction a as [|t a IH]; cbn [spec_kept app bind].
  - destruct (spec_kept cdf null_rate pval b); reflexivity.
  - destruct (spec_descriptor cdf null_rate pval t) as [d | e];
      [|reflexivity].
    cbn [bind]. rewrite IH.
    destruct (spec_kept cdf null_rate pval a) as [x | e]; [|reflexivity].
    cbn [bind].
    destruct (spec_kept cdf null_rate pval b) as [y | e]; [|reflexivity].
    cbn [bind]. now rewrite app_assoc.
Qed.

Lemma inner_loop (cdf : binom_cdf_fn) (null_pv pval : float)
    (cfield : string) (values : dict Distribution) (keep : list entry) :
  for_each (inner_body cdf null_pv pval cfield) values keep
  = (kept <- spec_kept cdf null_pv pval (field_triples cfield values) ;;
     Return (keep ++ kept)%list).
Proof.
  unfold field_triples.
  revert keep; induction values as [|[cval cdist] values IH]; intros keep.
  - cbn. now rewrite app_nil_r.
  - cbn [for_each map spec_kept fst snd inner_body spec_descriptor].
    destruct (truediv (observed_samples cdist) (total_samples cdist))
      as [cfrac | e]; [|reflexivity].
    cbn [bind].
    destruct (cdf (total_samples cdist - observed_samples cdist)
                  (total_samples cdist) null_pv) as [[p|] | e];
      [| |reflexivity]; cbn [bind].
    + destruct (fle p pval); cbn [bind]; rewrite IH;
        destruct (spec_kept cdf null_pv pval _) as [kept | e];
        try reflexivity; cbn [bind app].
      now rewrite <- app_assoc.
    + rewrite IH.
      destruct (spec_kept cdf null_pv pval _) as [kept | e]; reflexivity.
Qed.

Lemma keys_found {V : Type} (d : dict V) (k : string) :
  In k (keys d) -> exists v, dict_get k d = Some v.
Proof.
  induction d as [|[k' v'] d IH]; simpl; [intros []|].
  intros [<- | Hk].
  - rewrite String.eqb_refl. now exists v'.
  - destruct (String.eqb k k'); [now exists v' | now apply IH].
Qed.

Lemma outer_loop_on (cdf : binom_cdf_fn) (null_pv pval : float)
    (d : dict (dict Distribution)) (ks : list string) (keep : list entry) :
  (forall k, In k ks -> exists v, dict_get k d = Some v) ->
  for_each (outer_body cdf null_pv pval d) ks keep
  = (kept <- spec_kept cdf null_pv pval (triples_on d ks) ;;
     Return (keep ++ kept)%list).
Proof.
  revert keep; induction ks as [|cfield ks IH]; intros keep Hks.
  - cbn. now rewrite app_nil_r.
  - destruct (Hks cfield (or_introl eq_refl)) as [values Hv].
    cbn [for_each triples_on flat_map].
    unfold outer_body at 1. unfold subscript, items. rewrite Hv. cbn [bind].
    rewrite inner_loop, spec_kept_app. fold (triples_on d ks).
    destruct (spec_kept cdf null_pv pval (field_triples cfield values))
      as [x | e]; [|reflexivity].
    cbn [bind]. rewrite IH by (intros k Hk; apply Hks; now right).
    destruct (spec_kept cdf null_pv pval (triples_on d ks)) as [y | e];
      [|reflexivity].
    cbn [bind]. now rewrite app_assoc.
Qed.

Lemma outer_loop (cdf : binom_cdf_fn) (null_pv pval : float)
    (d : dict (dict Distribution)) (keep : list entry) :
  for_each (outer_body cdf null_pv pval d) (keys d) keep
  = (kept <- spec_kept cdf null_pv pval (triples d) ;;
     Return (keep ++ kept)%list).
Proof. apply outer_loop_on. intros k. apply keys_found. Qed.

(** With a nonzero count the code computes the summary of the
    specification. *)
Lemma get_annotation_string_spec (cdf : binom_cdf_fn)
    (i : SequenceAnnotationInfo) (pval : float) (z : Z) :
  total_observed i = Some (Some z) -> z <> 0 ->
  get_annotation_string cdf i pval
  = spec_summary cdf z (info_total_samples i) (triples (info i)) pval.
Proof.
  intros Hobs Hz. unfold get_annotation_string, get_total_observed, spec_summary.
  rewrite Hobs. cbn [bind]. apply Z.eqb_neq in Hz. rewrite Hz.
  destruct (truediv z (info_total_samples i)) as [rate | e]; [|reflexivity].
  cbn [bind]. rewrite outer_loop.
  destruct (spec_kept cdf (one_minus rate) pval (triples (info i)))
    as [kept | e]; reflexivity.
Qed.

(** A summary with a header comes from a payload with a nonzero count whose
    divisions and [cdf] calls all returned. *)
Lemma get_annotation_string_header (cdf : binom_cdf_fn)
    (i : SequenceAnnotationInfo) (pval : float) (header : string)
    (rest : list string) :
  get_annotation_string cdf i pval = Return (header :: rest) ->
  exists z rate kept,
    total_observed i = Some (Some z) /\ z <> 0
    /\ truediv z (info_total_samples i) = Return rate
    /\ spec_kept cdf (one_minus rate) pval (triples (info i)) = Return kept
    /\ header = fmt_header rate z (info_total_samples i)
    /\ rest = map e_desc (ranked kept).
Proof.
  intros H.
  destruct (total_observed i) as [[z|]|] eqn:Hobs;
    try (unfold get_annotation_string, get_total_observed in H;
         rewrite Hobs in H; discriminate H).
  destruct (Z.eqb_spec z 0) as [-> | Hz].
  { unfold get_annotation_string, get_total_observed in H.
    rewrite Hobs in H. discriminate H. }
  rewrite (get_annotation_string_spec cdf i pval z Hobs Hz) in H.
  unfold spec_summary in H.
  destruct (truediv z (info_total_samples i)) as [rate | e] eqn:Erate;
    [|discriminate H].
  cbn [bind] in H.
  destruct (spec_kept cdf (one_minus rate) pval (triples (info i)))
    as [kept | e] eqn:Ekept; [|discriminate H].
  cbn [bind] in H. injection H as <- <-.
  exists z, rate, kept. repeat split; assumption.
Qed.

Lemma for_each_keep (cdf : binom_cdf_fn) (null_pv pval : float)
    (d : dict (dict Distribution)) (kept : list entry) :
  spec_kept cdf null_pv pval (triples d) = Return kept ->
  for_each (outer_body cdf null_pv pval d) (keys d) [] = Return kept.
Proof. intros H. rewrite outer_loop, H. reflexivity. Qed.

(** What [spec_kept] returns: one entry for each triple whose division and
    [cdf] call return a p-value that is at most [pval]. *)
Lemma in_spec_kept (cdf : binom_cdf_fn) (null_rate pval : float)
    (ts : list triple) (kept : list entry) :
  spec_kept cdf null_rate pval ts = Return kept ->
  forall e : entry,
    In e kept
    <-> exists cfield cval cdist cfrac cpval,
          In (cfield, cval, cdist) ts
          /\ truediv (observed_samples cdist) (total_samples cdist)
             = Return cfrac
          /\ cdf (total_samples cdist - observed_samples cdist)
                 (total_samples cdist) null_rate = Return (Some cpval)
          /\ (fval cpval <= fval pval)%Q
          /\ e = (fmt_desc cfield cval (observed_samples cdist)
                           (total_samples cdist), cfrac, cpval).
Proof.
  revert kept; induction ts as [|[[cfield cval] cdist] ts IH]; intros kept H.
  - injection H as <-. intros e. split; [intros []|].
    intros (? & ? & ? & ? & ? & [] & _).
  - cbn [spec_kept spec_descriptor] in H.
    destruct (truediv (observed_samples cdist) (total_samples cdist))
      as [cfrac | ex] eqn:Ediv; [|discriminate H].
    cbn [bind] in H.
    destruct (cdf (total_samples cdist - observed_samples cdist)
                  (total_samples cdist) null_rate) as [p | ex] eqn:Ecdf;
      [|discriminate H].
    cbn [bind] in H.
    destruct (spec_kept cdf null_rate pval ts) as [rest | ex];
      [|discriminate H].
    cbn [bind] in H. injection H as <-.
    specialize (IH rest eq_refl). intros e. rewrite in_app_iff, IH.
    split.
    + intros [He | (f & v & c & fr & cp & Hin & Hd & Hc & Hle & ->)].
      * destruct p as [p|]; [|destruct He].
        destruct (fle p pval) eqn:Ef; [|destruct He].
        destruct He as [<- | []]. apply fle_iff in Ef.
        exists cfield, cval, cdist, cfrac, p.
        repeat split; auto. now left.
      * exists f, v, c, fr, cp. repeat split; auto. now right.
    + intros (f & v & c & fr & cp & [Heq | Hin] & Hd & Hc & Hle & ->).
      * injection Heq as <- <- <-. left.
        rewrite Hd in Ediv. injection Ediv as <-.
        rewrite Hc in Ecdf. injection Ecdf as <-.
        apply fle_iff in Hle. rewrite Hle. now left.
      * right. exists f, v, c, fr, cp. repeat split; auto.
Qed.

Lemma spec_kept_length (cdf : binom_cdf_fn) (null_rate pval : float)
    (ts : list triple) (kept : list entry) :
  spec_kept cdf null_rate pval ts = Return kept ->
  (List.length kept <= List.length ts)%nat.
Proof.
  revert kept; induction ts as [|[[cfield cval] cdist] ts IH]; intros kept H.
  - injection H as <-. reflexivity.
  - cbn [spec_kept spec_descriptor] in H.
    destruct (truediv _ _) as [cfrac | ex]; [|discriminate H].
    cbn [bind] in H.
    destruct (cdf _ _ _) as [p | ex]; [|discriminate H].
    cbn [bind] in H.
    destruct (spec_kept cdf null_rate pval ts) as [rest | ex];
      [|discriminate H].
    cbn [bind] in H. injection H as <-.
    specialize (IH rest eq_refl). rewrite length_app. cbn [List.length].
    destruct p as [p|]; [destruct (fle p pval)|]; cbn [List.length]; lia.
Qed.

(** [spec_kept] returns when every division and every [cdf] call does. *)
Lemma spec_kept_returns (cdf : binom_cdf_fn) (null_rate pval : float)
    (ts : list triple) :
  Forall (fun t =>
            (exists cfrac,
               truediv (observed_samples (snd t)) (total_samples (snd t))
               = Return cfrac)
            /\ exists cpval,
                 cdf (total_samples (snd t) - observed_samples (snd t))
                     (total_samples (snd t)) null_rate = Return cpval) ts ->
  exists kept, spec_kept cdf null_rate pval ts = Return kept.
Proof.
  induction 1 as [|[[cfield cval] cdist] ts [[cfrac Hd] [cpval Hc]] _ IH].
  - now exists [].
  - destruct IH as [rest Hrest]. cbn [snd] in Hd, Hc.
    cbn [spec_kept spec_descriptor]. rewrite Hd. cbn [bind]. rewrite Hc.
    cbn [bind]. rewrite Hrest. cbn [bind]. eexists. reflexivity.
Qed.

(** ** Sorting *)

Section SortFacts.
Context {A : Type}.
Variable before : A -> A -> bool.

Lemma insert_perm (x : A) (l : list A) :
  Permutation (x :: l) (insert before x l).
Proof.
  induction l as [|y l IH]; simpl.
  - reflexivity.
  - destruct (before x y); [reflexivity|].
    rewrite perm_swap. now constructor.
Qed.

Lemma stable_sort_perm (l : list A) : Permutation l (stable_sort before l).
Proof.
  induction l as [|x l IH]; simpl.
  - constructor.
  - rewrite <- insert_perm. now constructor.
Qed.

Lemma Forall_insert (P : A -> Prop) (x : A) (l : list A) :
  P x -> Forall P l -> Forall P (insert before x l).
Proof.
  intros Hx Hl.
  apply (Permutation_Forall (insert_perm x l)). now constructor.
Qed.
End SortFacts.

Lemma sorted_by_pval_sorted (l : list entry) :
  StronglySorted pval_le (sorted_by_pval l).
Proof.
  unfold sorted_by_pval.
  induction l as [|x l IH]; simpl; [constructor|].
  set (s := stable_sort _ l) in *. clearbody s.
  induction IH as [|y s Hs IHs Hy]; simpl.
  - repeat constructor.
  - destruct (Qle_bool (e_pval x) (e_pval y)) eqn:E.
    + apply Qle_bool_iff in E. constructor.
      * now constructor.
      * constructor; [exact E|].
        eapply Forall_impl; [|exact Hy].
        intros z Hz. unfold pval_le in *. now apply Qle_trans with (e_pval y).
    + assert (Hyx : pval_le y x).
      { unfold pval_le. apply Qlt_le_weak, Qnot_le_lt.
        intros H. apply Qle_bool_iff in H. congruence. }
      constructor; [exact IHs|]. now apply Forall_insert.
Qed.

Lemma frac_then_pval_frac (x y : entry) :
  frac_then_pval x y -> (e_frac y <= e_frac x)%Q.
Proof. intros [H | [H _]]; [now apply Qlt_le_weak | rewrite H; apply Qle_refl]. Qed.

(** Inserting by fraction an element whose p-value is below all the others
    keeps the combined order. *)
Lemma insert_frac_then_pval (x : entry) (s : list entry) :
  StronglySorted frac_then_pval s ->
  Forall (pval_le x) s ->
  StronglySorted frac_then_pval
    (insert (fun x y => Qle_bool (e_frac y) (e_frac x)) x s).
Proof.
  intros Hs. induction Hs as [|y s Hs IHs Hy]; intros Hx; simpl.
  - repeat constructor.
  - inversion Hx as [|? ? Hxy Hxs]; subst.
    destruct (Qle_bool (e_frac y) (e_frac x)) eqn:E.
    + apply Qle_bool_iff in E. constructor; [now constructor|].
      assert (Hall : Forall (fun z => (e_frac z <= e_frac x)%Q) (y :: s)).
      { constructor; [exact E|]. eapply Forall_impl; [|exact Hy].
        intros z Hz. apply Qle_trans with (e_frac y); [|exact E].
        now apply frac_then_pval_frac. }
      rewrite Forall_forall in *. intros z Hz.
      specialize (Hall z Hz). specialize (Hx z Hz).
      destruct (Qlt_le_dec (e_frac z) (e_frac x)) as [Hlt | Hge].
      * now left.
      * right. split; [now apply Qle_antisym | exact Hx].
    + assert (Hyx : frac_then_pval y x).
      { left. apply Qnot_le_lt. intros H. apply Qle_bool_iff in H.
        congruence. }
      constructor; [now apply IHs|]. now apply Forall_insert.
Qed.

Lemma sorted_by_frac_rev_sorted (l : list entry) :
  StronglySorted pval_le l ->
  StronglySorted frac_then_pval (sorted_by_frac_rev l).
Proof.
  unfold sorted_by_frac_rev.
  induction 1 as [|x l Hl IH Hx]; simpl; [constructor|].
  apply insert_frac_then_pval; [exact IH|].
  apply (Permutation_Forall (stable_sort_perm _ l)). exact Hx.
Qed.

Lemma ranked_sorted (kept : list entry) :
  StronglySorted frac_then_pval (ranked kept).
Proof. apply sorted_by_frac_rev_sorted, sorted_by_pval_sorted. Qed.

Lemma ranked_perm (kept : list entry) : Permutation kept (ranked kept).
Proof.
  unfold ranked, sorted_by_frac_rev, sorted_by_pval.
  etransitivity; apply stable_sort_perm.
Qed.

Lemma StronglySorted_nth {A : Type} (R : A -> A -> Prop) (l : list A) :
  StronglySorted R l ->
  forall (m n : nat) (a b : A),
    (m < n)%nat -> nth_error l m = Some a -> nth_error l n = Some b -> R a b.
Proof.
  induction 1 as [|x l Hl IH Hx]; intros m n a b Hmn Ha Hb.
  - destruct m; discriminate.
  - destruct n as [|n]; [lia|]. destruct m as [|m]; simpl in *.
    + injection Ha as <-. rewrite Forall_forall in Hx.
      apply Hx. eapply nth_error_In; eauto.
    + apply (IH m n); auto. lia.
Qed.

(** ** Ties in the order *)

Section Stability.
Context {A : Type}.
Variable before : A -> A -> bool.
Variable P : A -> bool.
(** Elements selected by [P] count as equal for [before]. *)
Hypothesis P_tied : forall x y, P x = true -> P y = true -> before x y = true.

Lemma insert_filter (x : A) (l : list A) :
  filter P (insert before x l) = filter P (x :: l).
Proof.
  induction l as [|y l IH]; [reflexivity|].
  cbn [insert]. destruct (before x y) eqn:E; [reflexivity|].
  cbn [filter] in *. rewrite IH.
  destruct (P x) eqn:Px; [|reflexivity].
  destruct (P y) eqn:Py; [|reflexivity].
  rewrite (P_tied x y Px Py) in E. discriminate.
Qed.

Lemma stable_sort_filter (l : list A) :
  filter P (stable_sort before l) = filter P l.
Proof.
  induction l as [|x l IH]; [reflexivity|].
  cbn [stable_sort fold_right]. fold (stable_sort before l).
  rewrite insert_filter. cbn [filter]. now rewrite IH.
Qed.
End Stability.

(** ** Examples *)

Example ex_info_summary :
  get_annotation_string cdf_reference ex_info default_pval
  = Return ["Found in 0.500000 samples (1 / 2)"; "host:mouse (5/5)";
            "site:gut (4/4)"; "host:human (7/8)"].
Proof. vm_compute. reflexivity. Qed.

(** Division rounds to the nearest double: [5 / 100] is not 1/20, and
    [1 - (1 - 5 / 100)] is above it. *)
Example ex_division_rounds :
  truediv 5 100 = Return (Float false (3602879701896397 # 72057594037927936))
  /\ one_minus (one_minus (Float false
                             (3602879701896397 # 72057594037927936)))
     = Float false (225179981368525 # 4503599627370496).
Proof. vm_compute. split; reflexivity. Qed.

(** A quotient beyond the doubles raises; a zero quotient keeps its sign. *)
Example ex_division_edges :
  truediv (10 ^ 400) 1 = Raise OverflowError
  /\ truediv 1 0 = Raise ZeroDivisionError
  /\ truediv 0 (-5) = Return (Float true 0)
  /\ truediv (-1) (10 ^ 400) = Return (Float true 0).
Proof. vm_compute. repeat split; reflexivity. Qed.

(** ['%f'] prints the double, so a decimal tie of the exact quotient is
    none. *)
Example ex_fmt_f :
  (rate <- truediv 5 2000000 ;; Return (fmt_f rate)) = Return "0.000003"
  /\ fmt_f (Float true 0) = "-0.000000"
  /\ fmt_f (Float false (1 # 128)) = "0.007812".
Proof. vm_compute. repeat split; reflexivity. Qed.

(** ** Configuration claims *)

(** C8, as stated, fails: the value [MAIN] is none of [local], [main],
    [develop], yet construction succeeds, because the value is lowercased
    before it is compared. *)
Lemma tier_uppercase_accepted :
  ~ (forall (os_environ : environ) (cfg : config) (v : string),
        dict_get tier_var os_environ = Some v ->
        v <> "local" -> v <> "main" -> v <> "develop" ->
        exists e, init os_environ cfg = Raise e).
Proof.
  intros H.
  destruct (H [(tier_var, "MAIN")] no_config "MAIN") as [e He];
    try reflexivity; try discriminate.
Qed.

(** C8 (amended): when the tier variable is set, construction compares its
    lowercased value: [local], [main] and [develop] each give an object
    whose [dburl] is the tier's address, and any other value makes
    construction raise [ValueError] at once, returning no object. *)
Theorem init_server_tier (os_environ : environ) (cfg : config) (v : string) :
  dict_get tier_var os_environ = Some v ->
  (lower v = "local" ->
   exists self, init os_environ cfg = Return self
                /\ dburl self = "http://127.0.0.1:5000")
  /\ (lower v = "main" ->
      exists self, init os_environ cfg = Return self
                   /\ dburl self = "http://amnonim.webfactional.com/spongeworld/")
  /\ (lower v = "develop" ->
      exists self,
        init os_environ cfg = Return self
        /\ dburl self = "http://amnonim.webfactional.com/spongeworld_develop")
  /\ (lower v <> "local" -> lower v <> "main" -> lower v <> "develop" ->
      init os_environ cfg
      = Raise (ValueError ("unknown server type " ++ lower v
                           ++ " in SPONGEWORLD_SERVER_TYPE"))).
Proof.
  intros Hv. unfold init, _get_db_address, contains, subscript.
  fold tier_var. rewrite Hv. cbn [bind].
  repeat split.
  - intros ->. cbn. eexists; split; reflexivity.
  - intros ->. cbn. eexists; split; reflexivity.
  - intros ->. cbn. eexists; split; reflexivity.
  - intros Hl Hm Hd.
    apply String.eqb_neq in Hl, Hm, Hd. rewrite Hl, Hm, Hd. reflexivity.
Qed.

Lemma init_server_tier_witness :
  (exists self, init [(tier_var, "Local")] no_config = Return self
                /\ dburl self = "http://127.0.0.1:5000")
  /\ init [(tier_var, "production")] no_config
     = Raise (ValueError
                "unknown server type production in SPONGEWORLD_SERVER_TYPE").
Proof.
  split.
  - apply (init_server_tier [(tier_var, "Local")] no_config "Local");
      reflexivity.
  - apply (init_server_tier [(tier_var, "production")] no_config "production");
      [reflexivity | discriminate | discriminate | discriminate].
Defined.

(** C9: the address used when the tier variable is absent is not the
    address of the tier [main]: the two differ by a trailing slash. *)
Theorem default_address_is_not_main :
  _get_db_address [] = Return "http://amnonim.webfactional.com/spongeworld"
  /\ _get_db_address [(tier_var, "main")]
     = Return "http://amnonim.webfactional.com/spongeworld/"
  /\ _get_db_address [] <> _get_db_address [(tier_var, "main")].
Proof. repeat split. discriminate. Qed.

(** ** Retrieval claims *)

Lemma get_seq_annotations_sent (cdf : binom_cdf_fn) (self : SpongeWorld)
    (srv : server) (sequence : string) (st : net) :
  sent (snd (get_seq_annotations cdf self srv sequence st))
  = (sent st ++ [info_request self sequence])%list.
Proof.
  unfold get_seq_annotations, _get, io_bind, send, info_request.
  destruct (srv _) as [res | e]; [|reflexivity].
  destruct (status_code res =? 200) eqn:E; cbn; rewrite E; cbn.
  - unfold lift. destruct (json res) as [i | e]; [|reflexivity].
    destruct (get_annotation_string cdf i default_pval); reflexivity.
  - reflexivity.
Qed.

(** C7: [get_seq_annotations] sends exactly one request, a GET of
    [sequence/info] whose body holds the uppercased sequence, and when the
    response to it has a status other than 200 the call returns the empty
    list and raises nothing. *)
Theorem get_seq_annotations_uppercase_and_failure (cdf : binom_cdf_fn)
    (self : SpongeWorld) (srv : server) (sequence : string) (st : net) :
  sent (snd (get_seq_annotations cdf self srv sequence st))
  = (sent st ++ [{| req_method := "GET";
                    req_url := dburl self ++ "/" ++ "sequence/info";
                    req_json := [("sequence", upper sequence)] |}])%list
  /\ forall res,
       srv (info_request self sequence) = Return res ->
       status_code res <> 200 ->
       fst (get_seq_annotations cdf self srv sequence st) = Return [].
Proof.
  split; [apply get_seq_annotations_sent|].
  intros res Hres Hst.
  unfold get_seq_annotations, _get, io_bind, send.
  fold (info_request self sequence). rewrite Hres.
  apply Z.eqb_neq in Hst. cbn. rewrite Hst. cbn. rewrite Hst. reflexivity.
Qed.

Lemma get_seq_annotations_uppercase_and_failure_witness :
  sent (snd (get_seq_annotations cdf_reference ex_self ex_server_missing
                                 "acgTN" ex_net))
  = [{| req_method := "GET";
        req_url := "http://127.0.0.1:5000/sequence/info";
        req_json := [("sequence", "ACGTN")] |}]
  /\ fst (get_seq_annotations cdf_reference ex_self ex_server_missing
                              "acgTN" ex_net)
     = Return [].
Proof.
  destruct (get_seq_annotations_uppercase_and_failure
              cdf_reference ex_self ex_server_missing "acgTN" ex_net)
    as [Hsent Hfail].
  split.
  - exact Hsent.
  - eapply Hfail; [reflexivity | simpl; lia].
Defined.

Lemma fold_append_map {A B : Type} (f : A -> B) (l : list A) (acc : list B) :
  fold_left (fun acc a => (acc ++ [f a])%list) l acc = (acc ++ map f l)%list.
Proof.
  revert acc; induction l as [|a l IH]; intros acc; simpl.
  - now rewrite app_nil_r.
  - rewrite IH, <- app_assoc. reflexivity.
Qed.

(** C10: [get_seq_annotation_strings] queries the server with the
    uppercased sequence, and pairs every line of the summary with the
    metadata dict holding the sequence exactly as the caller gave it. *)
Theorem get_seq_annotation_strings_original_sequence (cdf : binom_cdf_fn)
    (self : SpongeWorld) (srv : server) (sequence : string) (st : net) :
  sent (snd (get_seq_annotation_strings cdf self srv sequence st))
  = (sent st ++ [{| req_method := "GET";
                    req_url := dburl self ++ "/" ++ "sequence/info";
                    req_json := [("sequence", upper sequence)] |}])%list
  /\ fst (get_seq_annotation_strings cdf self srv sequence st)
     = match fst (get_seq_annotations cdf self srv sequence st) with
       | Return annotations =>
           Return (map (fun cann =>
                          ([("annotationtype", "other");
                            ("sequence", sequence)], cann))
                       annotations)
       | Raise e => Raise e
       end.
Proof.
  unfold get_seq_annotation_strings, io_bind.
  pose proof (get_seq_annotations_sent cdf self srv sequence st) as Hsent.
  destruct (get_seq_annotations cdf self srv sequence st) as [[anns | e] st'];
    cbn [fst snd] in *.
  - split; [exact Hsent|]. unfold io_ret. cbn [fst].
    now rewrite fold_append_map.
  - split; [exact Hsent | reflexivity].
Qed.


Example ex_annotation_strings_keep_case :
  fst (get_seq_annotation_strings cdf_reference ex_self ex_server_ok "acgt"
                                  ex_net)
  = Return
      [([("annotationtype", "other"); ("sequence", "acgt")],
        "Found in 0.500000 samples (1 / 2)");
       ([("annotationtype", "other"); ("sequence", "acgt")],
        "host:mouse (5/5)");
       ([("annotationtype", "other"); ("sequence", "acgt")], "site:gut (4/4)");
       ([("annotationtype", "other"); ("sequence", "acgt")],
        "host:human (7/8)")]
  /\ map req_json
         (sent (snd (get_seq_annotation_strings cdf_reference ex_self
                                                ex_server_ok "acgt" ex_net)))
     = [[("sequence", "ACGT")]].
Proof. vm_compute. split; reflexivity. Qed.

(** ** Annotation summary claims *)




(** C1: for a payload with [total_observed > 0] the code computes the
    summary of the specification: the null rate is
    [1 - total_observed / total_samples], the divisions are true divisions
    (no truncation to an int), and the p-value tested and stored for every
    (field, value, distribution) triple is the library's binomial
    distribution function for [n = distribution.total_samples] trials and
    that null rate, at [distribution.total_samples -
    distribution.observed_samples].  It holds whatever function stands for
    [scipy.stats.binom.cdf], and covers the runs that raise. *)
Theorem p_value_is_binomial_cdf (cdf : binom_cdf_fn)
    (i : SequenceAnnotationInfo) (pval : float) (z : Z) :
  total_observed i = Some (Some z) -> 0 < z ->
  get_annotation_string cdf i pval
  = spec_summary cdf z (info_total_samples i) (triples (info i)) pval.
Proof.
  intros Hobs Hz.
  unfold get_annotation_string, get_total_observed, spec_summary.
  rewrite Hobs. cbn [bind].
  destruct (Z.eqb_spec z 0) as [E | _]; [lia|].
  destruct (truediv z (info_total_samples i)) as [rate | e]; [|reflexivity].
  cbn [bind]. rewrite outer_loop.
  destruct (spec_kept cdf (one_minus rate) pval (triples (info i)))
    as [kept | e]; reflexivity.
Qed.

Lemma p_value_is_binomial_cdf_witness :
  get_annotation_string cdf_reference ex_info default_pval
  = spec_summary cdf_reference 1 (info_total_samples ex_info)
                 (triples (info ex_info)) default_pval.
Proof.
  apply (p_value_is_binomial_cdf cdf_reference ex_info default_pval 1).
  - reflexivity.
  - lia.
Defined.

(** C3, as stated, fails: when the payload has no [total_observed] key the
    subscript raises [KeyError] and no summary is returned. *)
Lemma absent_total_observed_raises :
  ~ (forall (cdf : binom_cdf_fn) (i : SequenceAnnotationInfo) (pval : float),
        (total_observed i = None \/ total_observed i = Some None
         \/ total_observed i = Some (Some 0)) ->
        get_annotation_string cdf i pval = Return []).
Proof.
  intros H.
  specialize (H cdf_reference
                {| total_observed := None; info_total_samples := 100;
                   info := [] |} default_pval (or_introl eq_refl)).
  discriminate H.
Qed.

(** C3 (amended): when the payload's [total_observed] is present and is 0
    or null, the summary is the empty list, with no header. *)
Theorem not_found_gives_empty_summary (cdf : binom_cdf_fn)
    (i : SequenceAnnotationInfo) (pval : float) :
  total_observed i = Some None \/ total_observed i = Some (Some 0) ->
  get_annotation_string cdf i pval = Return [].
Proof.
  intros [H | H]; unfold get_annotation_string, get_total_observed;
    rewrite H; reflexivity.
Qed.

Lemma not_found_gives_empty_summary_witness :
  get_annotation_string cdf_reference
    {| total_observed := Some None; info_total_samples := 100;
       info := [("host", [("human", dist 0 20)])] |} default_pval
  = Return []
  /\ get_annotation_string cdf_reference
       {| total_observed := Some (Some 0); info_total_samples := 100;
          info := [("host", [("human", dist 0 20)])] |} default_pval
     = Return [].
Proof.
  split.
  - apply not_found_gives_empty_summary. left. reflexivity.
  - apply not_found_gives_empty_summary. right. reflexivity.
Defined.

(** C5, as stated, fails: with [total_observed = 10] the call raises
    [ZeroDivisionError] on a distribution whose [total_samples] is 0, and
    returns no summary. *)
Lemma header_needs_nonzero_totals :
  ~ (forall (cdf : binom_cdf_fn) (i : SequenceAnnotationInfo) (pval : float)
            (z : Z),
        total_observed i = Some (Some z) -> 0 < z ->
        exists header rest,
          get_annotation_string cdf i pval = Return (header :: rest)).
Proof.
  intros H.
  destruct (H cdf_reference ex_info_empty_value default_pval 10
              eq_refl eq_refl) as (header & rest & Hrest).
  vm_compute in Hrest. discriminate Hrest.
Qed.

(** A quotient too large for a float raises as well. *)
Example ex_overflow_raises :
  get_annotation_string cdf_reference
    {| total_observed := Some (Some (10 ^ 400)); info_total_samples := 1;
       info := [] |} default_pval
  = Raise OverflowError.
Proof. vm_compute. reflexivity. Qed.

(** C5 (amended): for a payload with [total_observed > 0], when the
    division [total_observed / total_samples] returns, and for every
    distribution the division [observed_samples / total_samples] and the
    call of [binom.cdf] return, the summary is returned, is not empty, and
    starts with the header built from the float quotient and from
    [total_observed] and [total_samples] as given. *)
Theorem summary_starts_with_header (cdf : binom_cdf_fn)
    (i : SequenceAnnotationInfo) (pval : float) (z : Z) (rate : float) :
  total_observed i = Some (Some z) -> 0 < z ->
  truediv z (info_total_samples i) = Return rate ->
  Forall (fun t =>
            (exists cfrac,
               truediv (observed_samples (snd t)) (total_samples (snd t))
               = Return cfrac)
            /\ exists cpval,
                 cdf (total_samples (snd t) - observed_samples (snd t))
                     (total_samples (snd t)) (one_minus rate) = Return cpval)
         (triples (info i)) ->
  exists rest,
    get_annotation_string cdf i pval
    = Return (("Found in " ++ fmt_f rate ++ " samples (" ++ fmt_d z ++ " / "
               ++ fmt_d (info_total_samples i) ++ ")") :: rest).
Proof.
  intros Hobs Hz Hrate Hall.
  rewrite (get_annotation_string_spec cdf i pval z Hobs) by lia.
  unfold spec_summary. rewrite Hrate. cbn [bind].
  destruct (spec_kept_returns cdf (one_minus rate) pval _ Hall)
    as [kept Hkept].
  rewrite Hkept. cbn [bind]. eexists. reflexivity.
Qed.

Lemma summary_starts_with_header_witness :
  exists rest,
    get_annotation_string cdf_reference ex_info default_pval
    = Return (("Found in " ++ fmt_f (Float false (1 # 2)) ++ " samples ("
               ++ fmt_d 1 ++ " / " ++ fmt_d 2 ++ ")") :: rest).
Proof.
  apply (summary_starts_with_header cdf_reference ex_info default_pval 1
                                    (Float false (1 # 2))).
  - reflexivity.
  - lia.
  - vm_compute. reflexivity.
  - repeat constructor; eexists; vm_compute; reflexivity.
Defined.

(** C4: in a returned summary, the list [keep] built by the loop holds a
    descriptor for a (field, value) pair exactly when the pair's p-value is
    a number at most [pval], equality included; the descriptor's text is
    [<field>:<value> (<observed_samples>/<total_samples>)], and the lines
    after the header are the texts of [keep]. *)
Theorem kept_iff_below_threshold (cdf : binom_cdf_fn)
    (i : SequenceAnnotationInfo) (pval : float) (header : string)
    (rest : list string) :
  get_annotation_string cdf i pval = Return (header :: rest) ->
  exists z rate keep,
    total_observed i = Some (Some z)
    /\ truediv z (info_total_samples i) = Return rate
    /\ for_each (outer_body cdf (one_minus rate) pval (info i))
                (keys (info i)) []
       = Return keep
    /\ Permutation (map e_desc keep) rest
    /\ forall e : entry,
         In e keep
         <-> exists cfield cval cdist cfrac cpval,
               In (cfield, cval, cdist) (triples (info i))
               /\ truediv (observed_samples cdist) (total_samples cdist)
                  = Return cfrac
               /\ cdf (total_samples cdist - observed_samples cdist)
                      (total_samples cdist) (one_minus rate)
                  = Return (Some cpval)
               /\ (fval cpval <= fval pval)%Q
               /\ e = (cfield ++ ":" ++ cval ++ " ("
                       ++ fmt_d (observed_samples cdist) ++ "/"
                       ++ fmt_d (total_samples cdist) ++ ")",
                       cfrac, cpval).
Proof.
  intros H.
  destruct (get_annotation_string_header cdf i pval header rest H)
    as (z & rate & kept & Hobs & Hz & Hrate & Hkept & _ & Hrest).
  exists z, rate, kept. repeat split.
  - exact Hobs.
  - exact Hrate.
  - now apply for_each_keep.
  - rewrite Hrest. apply Permutation_map, ranked_perm.
  - apply (in_spec_kept cdf (one_minus rate) pval _ kept Hkept e).
  - apply (in_spec_kept cdf (one_minus rate) pval _ kept Hkept e).
Qed.

Lemma kept_iff_below_threshold_witness :
  exists z rate keep,
    total_observed ex_info = Some (Some z)
    /\ truediv z (info_total_samples ex_info) = Return rate
    /\ for_each (outer_body cdf_reference (one_minus rate) one_float
                            (info ex_info))
                (keys (info ex_info)) []
       = Return keep
    /\ Permutation (map e_desc keep)
                   ["host:mouse (5/5)"; "site:gut (4/4)"; "host:human (7/8)";
                    "site:skin (0/3)"]
    /\ forall e : entry,
         In e keep
         <-> exists cfield cval cdist cfrac cpval,
               In (cfield, cval, cdist) (triples (info ex_info))
               /\ truediv (observed_samples cdist) (total_samples cdist)
                  = Return cfrac
               /\ cdf_reference (total_samples cdist - observed_samples cdist)
                                (total_samples cdist) (one_minus rate)
                  = Return (Some cpval)
               /\ (fval cpval <= fval one_float)%Q
               /\ e = (cfield ++ ":" ++ cval ++ " ("
                       ++ fmt_d (observed_samples cdist) ++ "/"
                       ++ fmt_d (total_samples cdist) ++ ")",
                       cfrac, cpval).
Proof.
  apply (kept_iff_below_threshold
           cdf_reference ex_info one_float
           "Found in 0.500000 samples (1 / 2)").
  vm_compute. reflexivity.
Defined.

(** The threshold is met with equality in that example: no skin sample has
    the sequence, the p-value of [site:skin] is 1.0, and it is kept under
    the threshold 1.0. *)
Example ex_kept_on_threshold :
  cdf_reference 3 3 (Float false (1 # 2)) = Return (Some one_float)
  /\ inner_body cdf_reference (Float false (1 # 2)) one_float "site" []
                ("skin", dist 0 3)
     = Return [("site:skin (0/3)", Float false 0, one_float)].
Proof. vm_compute. split; reflexivity. Qed.

(** C2: in a returned summary, the lines after the header are the texts of
    [keep] sorted stably by ascending p-value and then stably by descending
    fraction; the result is ordered by fraction, larger first, with the
    smaller p-value first among equal fractions, so of two descriptors with
    different fractions the one with the larger fraction comes first.
    Fractions and p-values are the floats the program holds. *)
Theorem summary_order (cdf : binom_cdf_fn) (i : SequenceAnnotationInfo)
    (pval : float) (header : string) (rest : list string) :
  get_annotation_string cdf i pval = Return (header :: rest) ->
  exists z rate keep kept,
    total_observed i = Some (Some z)
    /\ truediv z (info_total_samples i) = Return rate
    /\ for_each (outer_body cdf (one_minus rate) pval (info i))
                (keys (info i)) []
       = Return keep
    /\ kept = sorted_by_frac_rev (sorted_by_pval keep)
    /\ rest = map e_desc kept
    /\ StronglySorted frac_then_pval kept
    /\ forall (m n : nat) (a b : entry),
         (m < n)%nat ->
         nth_error kept m = Some a -> nth_error kept n = Some b ->
         ~ (e_frac a == e_frac b)%Q ->
         (e_frac b < e_frac a)%Q.
Proof.
  intros H.
  destruct (get_annotation_string_header cdf i pval header rest H)
    as (z & rate & keep & Hobs & Hz & Hrate & Hkeep & _ & Hrest).
  exists z, rate, keep, (ranked keep).
  pose proof (ranked_sorted keep) as Hsorted.
  repeat split.
  - exact Hobs.
  - exact Hrate.
  - now apply for_each_keep.
  - exact Hrest.
  - exact Hsorted.
  - intros m n a b Hmn Ha Hb Hne.
    destruct (StronglySorted_nth _ _ Hsorted m n a b Hmn Ha Hb)
      as [Hlt | [Heq _]]; [exact Hlt | contradiction].
Qed.

Lemma summary_order_witness :
  exists z rate keep kept,
    total_observed ex_info = Some (Some z)
    /\ truediv z (info_total_samples ex_info) = Return rate
    /\ for_each (outer_body cdf_reference (one_minus rate) default_pval
                            (info ex_info))
                (keys (info ex_info)) []
       = Return keep
    /\ kept = sorted_by_frac_rev (sorted_by_pval keep)
    /\ ["host:mouse (5/5)"; "site:gut (4/4)"; "host:human (7/8)"]
       = map e_desc kept
    /\ StronglySorted frac_then_pval kept
    /\ forall (m n : nat) (a b : entry),
         (m < n)%nat ->
         nth_error kept m = Some a -> nth_error kept n = Some b ->
         ~ (e_frac a == e_frac b)%Q ->
         (e_frac b < e_frac a)%Q.
Proof.
  apply (summary_order cdf_reference ex_info default_pval
                       "Found in 0.500000 samples (1 / 2)").
  vm_compute. reflexivity.
Defined.

(** Two p-values that are the same float tie, whatever the exact
    probabilities are: both below are 0.0, and [env:a], met first, stays
    first. *)
Example ex_equal_floats_tie :
  get_annotation_string
    (fun _ _ _ => Return (Some (Float false 0)))
    {| total_observed := Some (Some 10000); info_total_samples := 100000;
       info := [("env", [("a", dist 400 400); ("b", dist 800 800)])] |}
    default_pval
  = Return ["Found in 0.100000 samples (10000 / 100000)";
            "env:a (400/400)"; "env:b (800/800)"].
Proof. vm_compute. reflexivity. Qed.

(** * Further properties of the code *)

(** ** Transport helpers *)

Lemma transport_outcome (method : string) (self : SpongeWorld) (srv : server)
    (api : string) (rdata : dict string) (st : net) :
  (res <~ send srv (api_request method self api rdata) ;;
   if negb (status_code res =? 200) then
     _ <~ logger_warn (rest_error res api) ;; io_ret res
   else io_ret res) st
  = (srv (api_request method self api rdata),
     {| sent := (sent st ++ [api_request method self api rdata])%list;
        warnings :=
          match srv (api_request method self api rdata) with
          | Return res =>
              if status_code res =? 200 then warnings st
              else (warnings st ++ [rest_error res api])%list
          | Raise _ => warnings st
          end |}).
Proof.
  unfold io_bind, send, logger_warn, io_ret.
  destruct (srv _) as [res | e]; [|reflexivity].
  destruct (status_code res =? 200); reflexivity.
Qed.

(** X1: [_get] sends one GET to [dburl/api] with the given body and hands
    back whatever the server gave, a response of any status or a transport
    exception, unchanged; it logs one warning, with the response's reason
    and content, exactly when a response has a status other than 200. *)
Theorem get_hands_back_response (self : SpongeWorld) (srv : server)
    (api : string) (rdata : dict string) (st : net) :
  fst (_get self srv api rdata st)
  = srv {| req_method := "GET"; req_url := dburl self ++ "/" ++ api;
           req_json := rdata |}
  /\ sent (snd (_get self srv api rdata st))
     = (sent st ++ [{| req_method := "GET";
                       req_url := dburl self ++ "/" ++ api;
                       req_json := rdata |}])%list
  /\ warnings (snd (_get self srv api rdata st))
     = match srv {| req_method := "GET"; req_url := dburl self ++ "/" ++ api;
                    req_json := rdata |} with
       | Return res =>
           if status_code res =? 200 then warnings st
           else (warnings st
                 ++ [rest_error res api])%list
       | Raise _ => warnings st
       end.
Proof.
  unfold _get. fold (api_request "GET" self api rdata).
  rewrite transport_outcome. repeat split.
Qed.

(** X2: [_post] does the same with a POST request. *)
Theorem post_hands_back_response (self : SpongeWorld) (srv : server)
    (api : string) (rdata : dict string) (st : net) :
  fst (_post self srv api rdata st)
  = srv {| req_method := "POST"; req_url := dburl self ++ "/" ++ api;
           req_json := rdata |}
  /\ sent (snd (_post self srv api rdata st))
     = (sent st ++ [{| req_method := "POST";
                       req_url := dburl self ++ "/" ++ api;
                       req_json := rdata |}])%list
  /\ warnings (snd (_post self srv api rdata st))
     = match srv {| req_method := "POST"; req_url := dburl self ++ "/" ++ api;
                    req_json := rdata |} with
       | Return res =>
           if status_code res =? 200 then warnings st
           else (warnings st
                 ++ [rest_error res api])%list
       | Raise _ => warnings st
       end.
Proof.
  unfold _post. fold (api_request "POST" self api rdata).
  rewrite transport_outcome. repeat split.
Qed.


(** Every run of [get_seq_annotations], by cases on what the server does. *)
Lemma get_seq_annotations_cases (cdf : binom_cdf_fn)
    (self : SpongeWorld) (srv : server) (sequence : string) (st : net) :
  get_seq_annotations cdf self srv sequence st
  = let st' :=
      {| sent := (sent st ++ [info_request self sequence])%list;
         warnings :=
           match srv (info_request self sequence) with
           | Return res =>
               if status_code res =? 200 then warnings st
               else (warnings st ++ [rest_error res "sequence/info"])%list
           | Raise _ => warnings st
           end |} in
    match srv (info_request self sequence) with
    | Return res =>
        if status_code res =? 200 then
          (match json res with
           | Return i => get_annotation_string cdf i default_pval
           | Raise e => Raise e
           end, st')
        else (Return [], st')
    | Raise e => (Raise e, st')
    end.
Proof.
  unfold get_seq_annotations, io_bind, _get.
  fold (api_request "GET" self "sequence/info" [("sequence", upper sequence)]).
  rewrite transport_outcome. cbn [fst snd].
  change (api_request "GET" self "sequence/info"
                      [("sequence", upper sequence)])
    with (info_request self sequence).
  destruct (srv (info_request self sequence)) as [res | e]; [|reflexivity].
  destruct (status_code res =? 200); cbn [negb]; [|reflexivity].
  unfold lift, io_ret. destruct (json res) as [i | e]; [|reflexivity].
  destruct (get_annotation_string cdf i default_pval); reflexivity.
Qed.

(** X3: when the server answers 200 with a payload, [get_seq_annotations]
    returns, or raises, exactly what [get_annotation_string] does on that
    payload with the threshold 0.1, and logs no warning. *)
Theorem get_seq_annotations_success (cdf : binom_cdf_fn)
    (self : SpongeWorld) (srv : server) (sequence : string) (st : net)
    (res : Response) (i : SequenceAnnotationInfo) :
  srv {| req_method := "GET";
         req_url := dburl self ++ "/" ++ "sequence/info";
         req_json := [("sequence", upper sequence)] |} = Return res ->
  status_code res = 200 ->
  json res = Return i ->
  fst (get_seq_annotations cdf self srv sequence st)
  = get_annotation_string cdf i default_pval
  /\ warnings (snd (get_seq_annotations cdf self srv sequence st))
     = warnings st.
Proof.
  intros Hres Hst Hjson. rewrite get_seq_annotations_cases.
  unfold info_request. cbn zeta. rewrite Hres, Hst, Hjson.
  split; reflexivity.
Qed.

Lemma get_seq_annotations_success_witness :
  fst (get_seq_annotations cdf_reference ex_self ex_server_ok "acgt" ex_net)
  = get_annotation_string cdf_reference ex_info default_pval
  /\ warnings (snd (get_seq_annotations cdf_reference ex_self ex_server_ok
                                         "acgt" ex_net))
     = warnings ex_net.
Proof.
  apply (get_seq_annotations_success cdf_reference ex_self ex_server_ok
           "acgt" ex_net
           {| status_code := 200; reason := "OK"; content := "";
              json := Return ex_info |} ex_info); reflexivity.
Defined.

(** X4: when the response has a status other than 200,
    [get_seq_annotations] logs exactly one warning, naming the response's
    reason, the endpoint and the response's content, and never reads the
    response's JSON. *)
Theorem get_seq_annotations_failure_warns (cdf : binom_cdf_fn)
    (self : SpongeWorld) (srv : server) (sequence : string) (st : net)
    (res : Response) :
  srv {| req_method := "GET";
         req_url := dburl self ++ "/" ++ "sequence/info";
         req_json := [("sequence", upper sequence)] |} = Return res ->
  status_code res <> 200 ->
  get_seq_annotations cdf self srv sequence st
  = (Return [],
     {| sent := (sent st
                 ++ [{| req_method := "GET";
                        req_url := dburl self ++ "/" ++ "sequence/info";
                        req_json := [("sequence", upper sequence)] |}])%list;
        warnings := (warnings st
                     ++ [rest_error res "sequence/info"])%list |}).
Proof.
  intros Hres Hst. rewrite get_seq_annotations_cases.
  unfold info_request. cbn zeta. rewrite Hres.
  apply Z.eqb_neq in Hst. rewrite Hst. reflexivity.
Qed.

Lemma get_seq_annotations_failure_warns_witness :
  get_seq_annotations cdf_reference ex_self ex_server_missing "acgt" ex_net
  = (Return [],
     {| sent := [{| req_method := "GET";
                    req_url := "http://127.0.0.1:5000/sequence/info";
                    req_json := [("sequence", "ACGT")] |}];
        warnings := ["REST error NOT FOUND enountered when accessing SpongeWorld sequence/info: no such page"] |}).
Proof.
  apply (get_seq_annotations_failure_warns cdf_reference ex_self
           ex_server_missing "acgt" ex_net
           {| status_code := 404; reason := "NOT FOUND";
                     content := "no such page";
                     json := Raise JSONDecodeError |});
    [reflexivity | simpl; lia].
Defined.

(** X5: [get_seq_annotations] does not catch exceptions: a transport
    exception, and on a 200 response an exception of [res.json()] or of
    [get_annotation_string], reaches the caller. *)
Theorem get_seq_annotations_propagates (cdf : binom_cdf_fn)
    (self : SpongeWorld) (srv : server) (sequence : string) (st : net)
    (e : exn) :
  srv {| req_method := "GET";
         req_url := dburl self ++ "/" ++ "sequence/info";
         req_json := [("sequence", upper sequence)] |} = Raise e
  \/ (exists res,
        srv {| req_method := "GET";
               req_url := dburl self ++ "/" ++ "sequence/info";
               req_json := [("sequence", upper sequence)] |} = Return res
        /\ status_code res = 200
        /\ (json res = Raise e
            \/ exists i, json res = Return i
                         /\ get_annotation_string cdf i default_pval
                            = Raise e)) ->
  fst (get_seq_annotations cdf self srv sequence st) = Raise e.
Proof.
  intros H. rewrite get_seq_annotations_cases. unfold info_request. cbn zeta.
  destruct H as [H | (res & Hres & Hst & [Hj | (i & Hj & Hi)])].
  - rewrite H. reflexivity.
  - rewrite Hres, Hst, Hj. reflexivity.
  - rewrite Hres, Hst, Hj. exact Hi.
Qed.

Lemma get_seq_annotations_propagates_witness :
  fst (get_seq_annotations cdf_reference ex_self ex_server_down "acgt" ex_net)
  = Raise ConnectionError.
Proof.
  apply (get_seq_annotations_propagates cdf_reference ex_self ex_server_down
                                        "acgt" ex_net).
  left. reflexivity.
Defined.

Lemma ascii_upper_idem (c : ascii) :
  ascii_upper (ascii_upper c) = ascii_upper c.
Proof. destruct c as [[] [] [] [] [] [] [] []]; reflexivity. Qed.

Lemma ascii_upper_lower (c : ascii) :
  ascii_upper (ascii_lower c) = ascii_upper c.
Proof. destruct c as [[] [] [] [] [] [] [] []]; reflexivity. Qed.

Lemma upper_idem (s : string) : upper (upper s) = upper s.
Proof.
  unfold upper. induction s as [|c s IH]; simpl; [reflexivity|].
  now rewrite ascii_upper_idem, IH.
Qed.

Lemma upper_lower (s : string) : upper (lower s) = upper s.
Proof.
  unfold upper, lower. induction s as [|c s IH]; simpl; [reflexivity|].
  now rewrite ascii_upper_lower, IH.
Qed.

(** X6: for a sequence of ASCII characters the query does not depend on the
    case of the letters: the sequence as given, its uppercase form and its
    lowercase form all send the same request and give the same outcome. *)
Theorem get_seq_annotations_ignores_case (cdf : binom_cdf_fn)
    (self : SpongeWorld) (srv : server) (sequence : string) (st : net) :
  is_ascii sequence = true ->
  get_seq_annotations cdf self srv (upper sequence) st
  = get_seq_annotations cdf self srv sequence st
  /\ get_seq_annotations cdf self srv (lower sequence) st
     = get_seq_annotations cdf self srv sequence st.
Proof.
  intros _. unfold get_seq_annotations. rewrite upper_idem, upper_lower.
  split; reflexivity.
Qed.

Lemma get_seq_annotations_ignores_case_witness :
  get_seq_annotations cdf_reference ex_self ex_server_ok (upper "acGt") ex_net
  = get_seq_annotations cdf_reference ex_self ex_server_ok "acGt" ex_net
  /\ get_seq_annotations cdf_reference ex_self ex_server_ok (lower "acGt")
                         ex_net
     = get_seq_annotations cdf_reference ex_self ex_server_ok "acGt" ex_net.
Proof.
  apply (get_seq_annotations_ignores_case cdf_reference ex_self ex_server_ok
                                          "acGt" ex_net).
  reflexivity.
Defined.

(** ** [get_seq_annotation_strings] *)

(** X7: [get_seq_annotation_strings] has no effect beyond those of
    [get_seq_annotations], and the texts of the pairs it returns are the
    lines of that summary, in order. *)
Theorem get_seq_annotation_strings_texts (cdf : binom_cdf_fn)
    (self : SpongeWorld) (srv : server) (sequence : string) (st : net) :
  snd (get_seq_annotation_strings cdf self srv sequence st)
  = snd (get_seq_annotations cdf self srv sequence st)
  /\ forall pairs,
       fst (get_seq_annotation_strings cdf self srv sequence st)
       = Return pairs ->
       fst (get_seq_annotations cdf self srv sequence st)
       = Return (map snd pairs).
Proof.
  unfold get_seq_annotation_strings, io_bind, io_ret.
  destruct (get_seq_annotations cdf self srv sequence st) as [[anns | e] st'];
    cbn [fst snd].
  - split; [reflexivity|]. intros pairs H. injection H as <-.
    rewrite fold_append_map. cbn [app]. rewrite map_map. cbn [snd].
    now rewrite map_id.
  - split; [reflexivity|]. intros pairs H. discriminate H.
Qed.

Lemma get_seq_annotation_strings_texts_witness :
  snd (get_seq_annotation_strings cdf_reference ex_self ex_server_ok "acgt"
                                  ex_net)
  = snd (get_seq_annotations cdf_reference ex_self ex_server_ok "acgt" ex_net)
  /\ fst (get_seq_annotations cdf_reference ex_self ex_server_ok "acgt" ex_net)
     = Return
         (map snd
            [([("annotationtype", "other"); ("sequence", "acgt")],
              "Found in 0.500000 samples (1 / 2)");
             ([("annotationtype", "other"); ("sequence", "acgt")],
              "host:mouse (5/5)");
             ([("annotationtype", "other"); ("sequence", "acgt")],
              "site:gut (4/4)");
             ([("annotationtype", "other"); ("sequence", "acgt")],
              "host:human (7/8)")]).
Proof.
  destruct (get_seq_annotation_strings_texts cdf_reference ex_self
              ex_server_ok "acgt" ex_net) as [Hst Htexts].
  split; [exact Hst|]. apply Htexts. vm_compute. reflexivity.
Defined.


(** ** [show_annotation_info] *)

(** X9: every metadata dict returned by [get_seq_annotation_strings] can be
    handed to [show_annotation_info]: it raises nothing and opens the search
    page of the sequence as the caller wrote it, not of the uppercased form
    that was sent to the server. *)
Theorem show_annotation_info_after_strings (cdf : binom_cdf_fn)
    (self : SpongeWorld) (srv : server) (sequence : string) (st : net)
    (pairs : list (dict string * string)) (annotation : dict string)
    (text : string) (opened : list BrowserCall) :
  fst (get_seq_annotation_strings cdf self srv sequence st) = Return pairs ->
  In (annotation, text) pairs ->
  show_annotation_info self annotation opened
  = (Return tt,
     (opened
      ++ [{| address := web_interface self ++ "/search_results?sequence="
                        ++ sequence;
             new := 2 |}])%list).
Proof.
  unfold get_seq_annotation_strings, io_bind, io_ret.
  destruct (get_seq_annotations cdf self srv sequence st)
    as [[anns | e] st']; cbn [fst]; intros H Hin; [|discriminate H].
  injection H as <-. rewrite fold_append_map in Hin. cbn [app] in Hin.
  apply in_map_iff in Hin as (cann & Heq & _). injection Heq as <- _.
  reflexivity.
Qed.

Lemma show_annotation_info_after_strings_witness :
  show_annotation_info ex_self
    [("annotationtype", "other"); ("sequence", "acgt")] []
  = (Return tt,
     [{| address := "http://127.0.0.1:5000/search_results?sequence=acgt";
         new := 2 |}]).
Proof.
  apply (show_annotation_info_after_strings cdf_reference ex_self
           ex_server_ok "acgt" ex_net
           [([("annotationtype", "other"); ("sequence", "acgt")],
             "Found in 0.500000 samples (1 / 2)");
            ([("annotationtype", "other"); ("sequence", "acgt")],
             "host:mouse (5/5)");
            ([("annotationtype", "other"); ("sequence", "acgt")],
             "site:gut (4/4)");
            ([("annotationtype", "other"); ("sequence", "acgt")],
             "host:human (7/8)")]
           [("annotationtype", "other"); ("sequence", "acgt")]
           "site:gut (4/4)" []).
  - vm_compute. reflexivity.
  - right. right. left. reflexivity.
Defined.

(** ** Construction *)

(** X10: construction can fail only with [ValueError], and only when the
    tier variable is set; the subscript of [os.environ] never raises.  When
    it succeeds, [dburl] is one of the four addresses in the code and
    [web_interface] is the same address. *)
Theorem init_outcomes (os_environ : environ) (cfg : config) :
  match init os_environ cfg with
  | Return self =>
      In (dburl self)
         ["http://127.0.0.1:5000";
          "http://amnonim.webfactional.com/spongeworld/";
          "http://amnonim.webfactional.com/spongeworld_develop";
          "http://amnonim.webfactional.com/spongeworld"]
      /\ web_interface self = dburl self
  | Raise e =>
      exists v msg,
        dict_get "SPONGEWORLD_SERVER_TYPE" os_environ = Some v
        /\ e = ValueError msg
  end.
Proof.
  unfold init, _get_db_address, contains, subscript.
  destruct (dict_get "SPONGEWORLD_SERVER_TYPE" os_environ) as [v|];
    cbn [bind].
  - destruct (String.eqb (lower v) "local"); cbn [bind dburl web_interface].
    { split; [now left | reflexivity]. }
    destruct (String.eqb (lower v) "main"); cbn [bind dburl web_interface].
    { split; [right; now left | reflexivity]. }
    destruct (String.eqb (lower v) "develop"); cbn [bind dburl web_interface].
    { split; [right; right; now left | reflexivity]. }
    eexists v, _. split; reflexivity.
  - split; [right; right; right; now left | reflexivity].
Qed.


(** ** Size of the summary and the threshold *)

(** X12: a summary never has more lines than one header plus one line for
    each (field, value) pair of the payload. *)
Theorem summary_length_bound (cdf : binom_cdf_fn)
    (i : SequenceAnnotationInfo) (pval : float) (desc : list string) :
  get_annotation_string cdf i pval = Return desc ->
  (List.length desc <= 1 + List.length (triples (info i)))%nat.
Proof.
  destruct desc as [|header rest]; [simpl; lia|].
  intros H.
  destruct (get_annotation_string_header cdf i pval header rest H)
    as (z & rate & kept & _ & _ & _ & Hkept & _ & ->).
  cbn [List.length]. rewrite length_map.
  rewrite <- (Permutation_length (ranked_perm kept)).
  pose proof (spec_kept_length cdf (one_minus rate) pval _ kept Hkept).
  lia.
Qed.

Lemma summary_length_bound_witness :
  (List.length ["Found in 0.500000 samples (1 / 2)"; "host:mouse (5/5)";
                "site:gut (4/4)"; "host:human (7/8)"]
   <= 1 + List.length (triples (info ex_info)))%nat.
Proof.
  apply (summary_length_bound cdf_reference ex_info default_pval).
  vm_compute. reflexivity.
Defined.

Lemma spec_kept_mono (cdf : binom_cdf_fn) (null_rate pval1 pval2 : float)
    (ts : list triple) (kept1 : list entry) :
  (fval pval1 <= fval pval2)%Q ->
  spec_kept cdf null_rate pval1 ts = Return kept1 ->
  exists kept2,
    spec_kept cdf null_rate pval2 ts = Return kept2 /\ incl kept1 kept2.
Proof.
  intros Hle. revert kept1.
  induction ts as [|[[cfield cval] cdist] ts IH]; intros kept1 H.
  - injection H as <-. exists []. split; [reflexivity | apply incl_refl].
  - cbn [spec_kept spec_descriptor] in *.
    destruct (truediv _ _) as [cfrac | ex]; [|discriminate H].
    cbn [bind] in *.
    destruct (cdf _ _ _) as [p | ex]; [|discriminate H].
    cbn [bind] in *.
    destruct (spec_kept cdf null_rate pval1 ts) as [rest1 | ex];
      [|discriminate H].
    cbn [bind] in H. injection H as <-.
    destruct (IH rest1 eq_refl) as (rest2 & -> & Hincl).
    cbn [bind]. eexists. split; [reflexivity|].
    apply incl_app; [|now apply incl_appr].
    destruct p as [p|]; [|apply incl_nil_l].
    destruct (fle p pval1) eqn:E1; [|apply incl_nil_l].
    apply fle_iff in E1.
    assert (E2 : fle p pval2 = true)
      by (apply fle_iff; now apply Qle_trans with (fval pval1)).
    rewrite E2. apply incl_appl, incl_refl.
Qed.

(** X13: raising the threshold only adds lines: when a summary is returned
    for [pval1] and [pval1 <= pval2], a summary is returned for [pval2] too,
    with the same header and with every line of the first among its
    lines. *)
Theorem threshold_monotone (cdf : binom_cdf_fn) (i : SequenceAnnotationInfo)
    (pval1 pval2 : float) (header : string) (rest1 : list string) :
  (fval pval1 <= fval pval2)%Q ->
  get_annotation_string cdf i pval1 = Return (header :: rest1) ->
  exists rest2,
    get_annotation_string cdf i pval2 = Return (header :: rest2)
    /\ incl rest1 rest2.
Proof.
  intros Hle H.
  destruct (get_annotation_string_header cdf i pval1 header rest1 H)
    as (z & rate & kept1 & Hobs & Hz & Hrate & Hkept1 & -> & ->).
  destruct (spec_kept_mono cdf (one_minus rate) pval1 pval2 _ kept1 Hle
                           Hkept1) as (kept2 & Hkept2 & Hincl).
  exists (map e_desc (ranked kept2)). split.
  - rewrite (get_annotation_string_spec cdf i pval2 z Hobs Hz).
    unfold spec_summary. rewrite Hrate. cbn [bind]. rewrite Hkept2.
    reflexivity.
  - intros line Hline.
    apply in_map_iff in Hline as (e & <- & He). apply in_map.
    apply (Permutation_in _ (ranked_perm kept2)). apply Hincl.
    now apply (Permutation_in _ (Permutation_sym (ranked_perm kept1))).
Qed.

Lemma threshold_monotone_witness :
  exists rest2,
    get_annotation_string cdf_reference ex_info one_float
    = Return ("Found in 0.500000 samples (1 / 2)" :: rest2)
    /\ incl ["host:mouse (5/5)"; "site:gut (4/4)"; "host:human (7/8)"] rest2.
Proof.
  apply (threshold_monotone cdf_reference ex_info default_pval one_float).
  - vm_compute. discriminate.
  - vm_compute. reflexivity.
Defined.

(** X14: the two sorts are stable together: the kept descriptors that share
    a fraction and a p-value come out in the order in which the loops
    appended them to [keep]. *)
Theorem ties_keep_loop_order (keep : list entry) (f p : Q) :
  filter (fun e => Qeq_bool (e_frac e) f && Qeq_bool (e_pval e) p)
         (sorted_by_frac_rev (sorted_by_pval keep))
  = filter (fun e => Qeq_bool (e_frac e) f && Qeq_bool (e_pval e) p) keep.
Proof.
  fold (tied f p). unfold sorted_by_frac_rev, sorted_by_pval.
  rewrite !stable_sort_filter; [reflexivity | |];
    intros x y Hx Hy; unfold tied in *;
    apply andb_true_iff in Hx as [Hxf Hxp];
    apply andb_true_iff in Hy as [Hyf Hyp];
    apply Qeq_bool_iff in Hxf, Hxp, Hyf, Hyp;
    apply Qle_bool_iff.
  - rewrite Hxp, Hyp. apply Qle_refl.
  - rewrite Hxf, Hyf. apply Qle_refl.
Qed.


(** ** The p-value *)


(** X15: the p-value of a distribution is a number between 0 and 1 when the
    distribution's [total_samples] is not negative and the null rate lies
    in [0, 1]; in every other case it is not-a-number. *)
Theorem p_value_range (null_pv : Q) (cdist : Distribution) :
  match p_value null_pv cdist with
  | Some cpval =>
      0 <= total_samples cdist /\ (0 <= null_pv)%Q /\ (null_pv <= 1)%Q
      /\ (0 <= cpval)%Q /\ (cpval <= 1)%Q
  | None => total_samples cdist < 0 \/ (null_pv < 0)%Q \/ (1 < null_pv)%Q
  end.
Proof.
  destruct (p_value null_pv cdist) as [q|] eqn:E.
  - destruct (p_value_valid _ _ _ E) as (Hn & H0 & H1).
    destruct (p_value_bounded _ _ _ E) as [Hlo Hhi].
    repeat split; assumption.
  - unfold p_value in E. now apply binom_cdf_nan in E.
Qed.

(** X16: a value in none of whose samples the sequence was observed is
    never kept under a threshold below 1, when [binom.cdf] at the end of
    the support ([k = n]) answers 1 or not-a-number, as a distribution
    function does. *)
Theorem unobserved_value_dropped (cdf : binom_cdf_fn) (null_pv pval : float)
    (cfield cval : string) (n : Z) (keep : list entry) :
  n <> 0 -> (fval pval < 1)%Q ->
  (cdf n n null_pv = Return None
   \/ exists x, cdf n n null_pv = Return (Some x) /\ (fval x == 1)%Q) ->
  inner_body cdf null_pv pval cfield keep
             (cval, {| observed_samples := 0; total_samples := n |})
  = Return keep.
Proof.
  intros Hn Hp Hcdf. unfold inner_body, truediv.
  cbn [observed_samples total_samples].
  apply Z.eqb_neq in Hn as En. rewrite En. cbn [Z.eqb bind].
  rewrite Z.sub_0_r.
  destruct Hcdf as [-> | (x & -> & Hx)]; cbn [bind]; [reflexivity|].
  destruct (fle x pval) eqn:E; [|reflexivity].
  apply fle_iff in E. rewrite Hx in E. lra.
Qed.

Lemma unobserved_value_dropped_witness :
  inner_body cdf_reference (Float false (9 # 10)) default_pval "host" []
             ("mouse", {| observed_samples := 0; total_samples := 20 |})
  = Return [].
Proof.
  apply (unobserved_value_dropped cdf_reference (Float false (9 # 10))
                                  default_pval "host" "mouse" 20 []).
  - lia.
  - vm_compute. reflexivity.
  - right. exists one_float. split; vm_compute; reflexivity.
Defined.

(** ** Summaries that are only a header *)

Lemma dict_get_In {V : Type} (d : dict V) (k : string) (v : V) :
  dict_get k d = Some v -> In (k, v) d.
Proof.
  induction d as [|[k' v'] d IH]; simpl; [discriminate|].
  destruct (String.eqb_spec k k') as [-> | _].
  - intros H. injection H as <-. now left.
  - intros H. right. now apply IH.
Qed.

(** X20: a payload with no fields, or whose fields have no values, gives
    the header alone, when [total_observed] is not 0 and its division by
    [total_samples] returns. *)
Theorem no_values_header_only (cdf : binom_cdf_fn)
    (i : SequenceAnnotationInfo) (pval : float) (z : Z) (rate : float) :
  total_observed i = Some (Some z) -> z <> 0 ->
  truediv z (info_total_samples i) = Return rate ->
  (forall cfield values, In (cfield, values) (info i) -> values = []) ->
  get_annotation_string cdf i pval
  = Return [fmt_header rate z (info_total_samples i)].
Proof.
  intros Hobs Hz Hrate Hempty.
  assert (Hnil : triples (info i) = []).
  { unfold triples. induction (keys (info i)) as [|k ks IH]; [reflexivity|].
    cbn [triples_on flat_map]. fold (triples_on (info i) ks). rewrite IH.
    destruct (dict_get k (info i)) as [values|] eqn:E; [|reflexivity].
    apply dict_get_In in E. rewrite (Hempty k values E). reflexivity. }
  rewrite (get_annotation_string_spec cdf i pval z Hobs Hz).
  unfold spec_summary. rewrite Hrate, Hnil. reflexivity.
Qed.

Lemma no_values_header_only_witness :
  get_annotation_string cdf_reference
    {| total_observed := Some (Some 5); info_total_samples := 2000000;
       info := [("host", [])] |} default_pval
  = Return ["Found in 0.000003 samples (5 / 2000000)"].
Proof.
  apply (no_values_header_only cdf_reference
           {| total_observed := Some (Some 5); info_total_samples := 2000000;
              info := [("host", [])] |} default_pval 5
           (Float false (5902958103587057 # 2361183241434822606848))).
  - reflexivity.
  - lia.
  - vm_compute. reflexivity.
  - intros cfield values [H | []]. now injection H as _ <-.
Defined.

(** X21: a negative threshold keeps nothing when the numbers [binom.cdf]
    returns lie in [0, 1]: whenever a summary is returned for it, the
    summary is its header. *)
Theorem negative_threshold_header_only (cdf : binom_cdf_fn)
    (i : SequenceAnnotationInfo) (pval : float) (header : string)
    (rest : list string) :
  cdf_in_unit cdf ->
  (fval pval < 0)%Q ->
  get_annotation_string cdf i pval = Return (header :: rest) ->
  rest = [].
Proof.
  intros Hunit Hp H.
  destruct (get_annotation_string_header cdf i pval header rest H)
    as (z & rate & kept & _ & _ & _ & Hkept & _ & ->).
  destruct kept as [|e kept]; [reflexivity|].
  destruct (proj1 (in_spec_kept cdf (one_minus rate) pval _ _ Hkept e)
                  (or_introl eq_refl))
    as (cfield & cval & cdist & cfrac & cpval & _ & _ & Hc & Hle & _).
  destruct (Hunit _ _ _ _ Hc) as [H0 _]. lra.
Qed.

Lemma cdf_reference_in_unit : cdf_in_unit cdf_reference.
Proof.
  intros k n p x H. unfold cdf_reference in H.
  destruct (binom_cdf k n (fval p)) as [q|]; [|discriminate H].
  injection H as <-. unfold unit_float.
  destruct (round_float q) as [y|]; [|split; cbn; lra].
  destruct (Qle_bool (fval y) 0) eqn:E0; [split; cbn; lra|].
  destruct (Qle_bool 1 (fval y)) eqn:E1; [split; cbn; lra|].
  split; apply Qlt_le_weak, Qnot_le_lt; intros Hc;
    apply Qle_bool_iff in Hc; congruence.
Qed.

Lemma negative_threshold_header_only_witness :
  @nil string = [].
Proof.
  apply (negative_threshold_header_only cdf_reference ex_info
           (Float true (1 # 10)) "Found in 0.500000 samples (1 / 2)" []).
  - apply cdf_reference_in_unit.
  - vm_compute. reflexivity.
  - vm_compute. reflexivity.
Defined.

(** ** [get_seq_annotation_strings] on a failed request *)

(** X23: [get_seq_annotation_strings] on a response whose status is not
    200 returns no pairs and raises nothing. *)
Theorem get_seq_annotation_strings_failure (cdf : binom_cdf_fn)
    (self : SpongeWorld) (srv : server) (sequence : string) (st : net)
    (res : Response) :
  srv {| req_method := "GET";
         req_url := dburl self ++ "/" ++ "sequence/info";
         req_json := [("sequence", upper sequence)] |} = Return res ->
  status_code res <> 200 ->
  fst (get_seq_annotation_strings cdf self srv sequence st) = Return [].
Proof.
  intros Hres Hst. unfold get_seq_annotation_strings, io_bind.
  rewrite get_seq_annotations_cases. unfold info_request. cbn zeta.
  rewrite Hres. apply Z.eqb_neq in Hst. rewrite Hst. reflexivity.
Qed.

Lemma get_seq_annotation_strings_failure_witness :
  fst (get_seq_annotation_strings cdf_reference ex_self ex_server_missing
                                  "acgt" ex_net)
  = Return [].
Proof.
  apply (get_seq_annotation_strings_failure cdf_reference ex_self
           ex_server_missing "acgt" ex_net
           {| status_code := 404; reason := "NOT FOUND";
              content := "no such page";
              json := Raise JSONDecodeError |});
    [reflexivity | simpl; lia].
Defined.
